(** * SubjectSaar: the exam session of [TestApp]

    A shallow embedding of the session logic of the [TestApp] class
    (question navigation, answer and review bookkeeping, per-question
    timing, the countdown, submission and scoring), followed by the
    properties of the session that the specification states.

    Conventions of the embedding.
    - JavaScript numbers are exact rationals ([Q]) plus [NaN]; rounding and
      overflow of IEEE doubles are not modelled.  Every arithmetic result is
      stored reduced ([Qred]), so equal numbers are equal terms.
    - [Date.now()] is an integer number of milliseconds ([Z]); every method
      that reads the clock takes the reading as an argument.
    - Arrays are lists read and written by index the JavaScript way: a read
      outside the array gives [undefined], a write past the end extends the
      array.  Indices are natural numbers.
    - A method that throws keeps the mutations done before the throw; its
      outcome is [Threw s] with [s] the state at the throw.
    - Of the page, only what decides which handler can run is kept: the
      welcome screen, the grid cells, the option rows with a click handler,
      the results modal, the interval of the countdown. *)

From Stdlib Require Import ZArith QArith Qround String Bool Lia Lqa.
From stdpp Require Import base option list strings pretty.

Local Open Scope Z_scope.

(** ** JavaScript values *)

(** The values that reach the session: the payload's numeric fields, the
    cells of [ans], [reviewed] and [timeSpent]. *)
Inductive value :=
| VUndef
| VNull
| VBool (b : bool)
| VNum (q : Q)
| VNaN.

Module Js.

(** [ToNumber]; [None] stands for [NaN]. *)
Definition to_num (v : value) : option Q :=
  match v with
  | VUndef => None
  | VNull => Some 0%Q
  | VBool b => Some (if b then 1%Q else 0%Q)
  | VNum q => Some q
  | VNaN => None
  end.

Definition of_num (o : option Q) : value :=
  match o with
  | Some q => VNum (Qred q)
  | None => VNaN
  end.

Definition arith (f : Q -> Q -> Q) (a b : value) : value :=
  match to_num a, to_num b with
  | Some x, Some y => of_num (Some (f x y))
  | _, _ => VNaN
  end.

(** [a + b], [a - b], [a * b] on values that are not strings. *)
Definition plus : value -> value -> value := arith Qplus.
Definition minus : value -> value -> value := arith Qminus.
Definition times : value -> value -> value := arith Qmult.

(** [a <= b]: false as soon as one side is [NaN]. *)
Definition le (a b : value) : bool :=
  match to_num a, to_num b with
  | Some x, Some y => Qle_bool x y
  | _, _ => false
  end.

(** [a < b], likewise. *)
Definition lt (a b : value) : bool :=
  match to_num a, to_num b with
  | Some x, Some y => negb (Qle_bool y x)
  | _, _ => false
  end.

(** [Math.max(a, b)]. *)
Definition max (a b : value) : value :=
  match to_num a, to_num b with
  | Some x, Some y => of_num (Some (if Qle_bool x y then y else x))
  | _, _ => VNaN
  end.

(** [a === b]. *)
Definition strict_eq (a b : value) : bool :=
  match a, b with
  | VUndef, VUndef => true
  | VNull, VNull => true
  | VBool x, VBool y => Bool.eqb x y
  | VNum x, VNum y => Qeq_bool x y
  | _, _ => false
  end.

(** Truthiness, as [!v], [v || w] and [if (v)] test it. *)
Definition truthy (v : value) : bool :=
  match v with
  | VUndef | VNull | VNaN => false
  | VBool b => b
  | VNum q => negb (Qeq_bool q 0)
  end.

Definition not (v : value) : value := VBool (negb (truthy v)).

(** The number [n] of an array index or of a count. *)
Definition of_nat (n : nat) : value := VNum (inject_Z (Z.of_nat n)).

(** [Math.round(x)] for a rational [x]: the nearest integer, halves up. *)
Definition round (x : Q) : Z := Qfloor (x + (1 # 2)).

(** *** Arrays *)

(** [a[i]]. *)
Definition get (a : list value) (i : nat) : value := default VUndef (a !! i).

(** [a[i] = v]: in place inside the array; past the end the array grows, the
    skipped cells reading [undefined]. *)
Definition set (a : list value) (i : nat) (v : value) : list value :=
  if (i <? length a)%nat then <[i := v]> a
  else a ++ replicate (i - length a) VUndef ++ [v].

(** [new Array(n).fill(v)]. *)
Definition filled (n : nat) (v : value) : list value := replicate n v.

End Js.

(** ** The payload *)

(** One entry of [data.questions].  The texts are kept as strings; an absent
    key is [None] ([VUndef] for [correct_option_id]). *)
Record Question := {
  question : string;
  options : option (list string);
  correct_option_id : value;
  comp : option string;
  solution : option string
}.

(** A config object.  A numeric key that is absent reads [VUndef]. *)
Record Config := {
  testName : option string;
  testId : option string;
  durationMinutes : value;
  totalMarks : value;
  marksPerQuestion : value;
  negativeMarking : value;
  nameDisplay : option string
}.

(** What [data.config] can hold once the JSON is parsed: nothing (the key is
    absent), a primitive, or an object. *)
Inductive json_config :=
| CfgAbsent
| CfgNull
| CfgBool (b : bool)
| CfgNum (q : Q)
| CfgStr (s : string)
| CfgObj (c : Config).

(** Truthiness of [data.config], as [||] tests it. *)
Definition cfg_truthy (c : json_config) : bool :=
  match c with
  | CfgAbsent | CfgNull => false
  | CfgBool b => b
  | CfgNum q => negb (Qeq_bool q 0)
  | CfgStr s => negb (String.eqb s EmptyString)
  | CfgObj _ => true
  end.

(** [c.f] for a numeric key [f]: a primitive has no such property. *)
Definition cfg_field (f : Config -> value) (c : json_config) : value :=
  match c with
  | CfgObj o => f o
  | _ => VUndef
  end.

(** The parsed payload, [data]. *)
Module Data.
Record t := { config : json_config; questions : list Question }.
End Data.

(** ** The session *)

(** [this.timer]: [null], the id of the running interval, or the id of an
    interval that [clearInterval] has cancelled. *)
Inductive timer_handle := TNull | TLive | TStale.

(** What [calcResults] returns. *)
Record Result := {
  score : value;
  correct : nat;
  incorrect : nat;
  unattempted : nat;
  timeTaken : Z
}.

(** The part of the page that decides which handlers can run. *)
Record Page := {
  welcome : bool;                  (* the welcome screen, with its start button, is shown *)
  wired : bool;                    (* [setupEvents] has installed the buttons' handlers *)
  gridCells : nat;                 (* cells of the grid; cell [i] calls [goToQ(i)] *)
  optRows : option (nat * nat);    (* [(qIdx, n)]: rows [i < n] call [selOpt(i, qIdx)] *)
  results : option Result;         (* what [showResults] wrote into the modal *)
  modal : bool                     (* the results modal is open *)
}.

(** The fields of a [TestApp] instance ([sections], [sectionTimer] and
    [currentSection] stay [null] and are left out). *)
Record TestApp := {
  config : json_config;
  qs : list Question;
  curQ : nat;
  ans : list value;
  reviewed : list value;
  startT : Z;
  timeLeft : value;
  timeSpent : list value;
  lastQTime : Z;
  sub : bool;
  eng : bool;
  darkMode : bool;
  timer : timer_handle;
  page : Page
}.

(** Assignments to one field. *)
Definition set_curQ (v : nat) (s : TestApp) : TestApp :=
  {| config := config s; qs := qs s; curQ := v; ans := ans s; reviewed := reviewed s;
     startT := startT s; timeLeft := timeLeft s; timeSpent := timeSpent s;
     lastQTime := lastQTime s; sub := sub s; eng := eng s; darkMode := darkMode s;
     timer := timer s; page := page s |}.
Definition set_ans (v : list value) (s : TestApp) : TestApp :=
  {| config := config s; qs := qs s; curQ := curQ s; ans := v; reviewed := reviewed s;
     startT := startT s; timeLeft := timeLeft s; timeSpent := timeSpent s;
     lastQTime := lastQTime s; sub := sub s; eng := eng s; darkMode := darkMode s;
     timer := timer s; page := page s |}.
Definition set_reviewed (v : list value) (s : TestApp) : TestApp :=
  {| config := config s; qs := qs s; curQ := curQ s; ans := ans s; reviewed := v;
     startT := startT s; timeLeft := timeLeft s; timeSpent := timeSpent s;
     lastQTime := lastQTime s; sub := sub s; eng := eng s; darkMode := darkMode s;
     timer := timer s; page := page s |}.
Definition set_timeLeft (v : value) (s : TestApp) : TestApp :=
  {| config := config s; qs := qs s; curQ := curQ s; ans := ans s; reviewed := reviewed s;
     startT := startT s; timeLeft := v; timeSpent := timeSpent s;
     lastQTime := lastQTime s; sub := sub s; eng := eng s; darkMode := darkMode s;
     timer := timer s; page := page s |}.
Definition set_timeSpent (v : list value) (s : TestApp) : TestApp :=
  {| config := config s; qs := qs s; curQ := curQ s; ans := ans s; reviewed := reviewed s;
     startT := startT s; timeLeft := timeLeft s; timeSpent := v;
     lastQTime := lastQTime s; sub := sub s; eng := eng s; darkMode := darkMode s;
     timer := timer s; page := page s |}.
Definition set_lastQTime (v : Z) (s : TestApp) : TestApp :=
  {| config := config s; qs := qs s; curQ := curQ s; ans := ans s; reviewed := reviewed s;
     startT := startT s; timeLeft := timeLeft s; timeSpent := timeSpent s;
     lastQTime := v; sub := sub s; eng := eng s; darkMode := darkMode s;
     timer := timer s; page := page s |}.
Definition set_sub (v : bool) (s : TestApp) : TestApp :=
  {| config := config s; qs := qs s; curQ := curQ s; ans := ans s; reviewed := reviewed s;
     startT := startT s; timeLeft := timeLeft s; timeSpent := timeSpent s;
     lastQTime := lastQTime s; sub := v; eng := eng s; darkMode := darkMode s;
     timer := timer s; page := page s |}.
Definition set_eng (v : bool) (s : TestApp) : TestApp :=
  {| config := config s; qs := qs s; curQ := curQ s; ans := ans s; reviewed := reviewed s;
     startT := startT s; timeLeft := timeLeft s; timeSpent := timeSpent s;
     lastQTime := lastQTime s; sub := sub s; eng := v; darkMode := darkMode s;
     timer := timer s; page := page s |}.
Definition set_darkMode (v : bool) (s : TestApp) : TestApp :=
  {| config := config s; qs := qs s; curQ := curQ s; ans := ans s; reviewed := reviewed s;
     startT := startT s; timeLeft := timeLeft s; timeSpent := timeSpent s;
     lastQTime := lastQTime s; sub := sub s; eng := eng s; darkMode := v;
     timer := timer s; page := page s |}.
Definition set_timer (v : timer_handle) (s : TestApp) : TestApp :=
  {| config := config s; qs := qs s; curQ := curQ s; ans := ans s; reviewed := reviewed s;
     startT := startT s; timeLeft := timeLeft s; timeSpent := timeSpent s;
     lastQTime := lastQTime s; sub := sub s; eng := eng s; darkMode := darkMode s;
     timer := v; page := page s |}.
Definition set_page (v : Page) (s : TestApp) : TestApp :=
  {| config := config s; qs := qs s; curQ := curQ s; ans := ans s; reviewed := reviewed s;
     startT := startT s; timeLeft := timeLeft s; timeSpent := timeSpent s;
     lastQTime := lastQTime s; sub := sub s; eng := eng s; darkMode := darkMode s;
     timer := timer s; page := v |}.

Definition set_welcome (v : bool) (p : Page) : Page :=
  {| welcome := v; wired := wired p; gridCells := gridCells p; optRows := optRows p;
     results := results p; modal := modal p |}.
Definition set_wired (v : bool) (p : Page) : Page :=
  {| welcome := welcome p; wired := v; gridCells := gridCells p; optRows := optRows p;
     results := results p; modal := modal p |}.
Definition set_gridCells (v : nat) (p : Page) : Page :=
  {| welcome := welcome p; wired := wired p; gridCells := v; optRows := optRows p;
     results := results p; modal := modal p |}.
Definition set_optRows (v : option (nat * nat)) (p : Page) : Page :=
  {| welcome := welcome p; wired := wired p; gridCells := gridCells p; optRows := v;
     results := results p; modal := modal p |}.
Definition set_results (v : option Result) (p : Page) : Page :=
  {| welcome := welcome p; wired := wired p; gridCells := gridCells p; optRows := optRows p;
     results := v; modal := modal p |}.
Definition set_modal (v : bool) (p : Page) : Page :=
  {| welcome := welcome p; wired := wired p; gridCells := gridCells p; optRows := optRows p;
     results := results p; modal := v |}.

(** A method either returns or throws; the state is the one reached. *)
Inductive outcome :=
| Done (s : TestApp)
| Threw (s : TestApp).

Definition state_of (o : outcome) : TestApp :=
  match o with Done s | Threw s => s end.

(** Sequencing: what follows a throwing call does not run. *)
Definition and_then (o : outcome) (k : TestApp -> outcome) : outcome :=
  match o with
  | Done s => k s
  | Threw s => Threw s
  end.

Notation "o >>> k" := (and_then o k) (at level 60, right associativity).

(** ** The methods of [TestApp] *)

(** [getDefaultConfig(qs)]; [None] is a falsy [qs]. *)
Definition getDefaultConfig (qs : option (list Question)) : Config :=
  let totalQ := match qs with Some l => length l | None => 0%nat end in
  let perQ := if Js.truthy (Js.of_nat totalQ) then Js.of_nat totalQ else VNum 34 in
  {| testName := Some "General Mock Test"%string;
     testId := Some "DEFAULT001"%string;
     durationMinutes := perQ;
     totalMarks := perQ;
     marksPerQuestion := VNum 1;
     negativeMarking := VNum (1 # 4);
     nameDisplay := Some "User"%string |}.

(** [validateData()]: the questions it warns about, by index.  It only
    writes to the console. *)
Definition invalid_correct_option (q : Question) : bool :=
  match options q with
  | Some os =>
      Js.lt (correct_option_id q) (VNum 0)
      || Js.le (Js.of_nat (length os)) (correct_option_id q)
  | None => false
  end.

Fixpoint warnings_from (idx : nat) (l : list Question) : list nat :=
  match l with
  | [] => []
  | q :: rest =>
      if invalid_correct_option q then idx :: warnings_from (S idx) rest
      else warnings_from (S idx) rest
  end.

Definition validateData (s : TestApp) : list nat := warnings_from 0 (qs s).

(** [loadOpts(q, qIdx)]: the option rows are rebuilt; they get a click
    handler only before submission.  Without an options array nothing is
    rendered.  An undefined [q] throws once the rows are cleared. *)
Definition loadOpts (q : option Question) (qIdx : nat) (s : TestApp) : outcome :=
  let cleared := set_page (set_optRows None (page s)) s in
  match q with
  | None => Threw cleared
  | Some q =>
      match options q with
      | None => Done cleared
      | Some os =>
          if sub s then Done cleared
          else Done (set_page (set_optRows (Some (qIdx, length os)) (page s)) s)
      end
  end.

(** The flush shared by [loadQ] and [subTest]:
    [this.timeSpent[this.curQ] += (now - this.lastQTime) / 1000]. *)
Definition flush (now : Z) (s : TestApp) : TestApp :=
  let delta := VNum (inject_Z (now - lastQTime s) / 1000) in
  set_timeSpent
    (Js.set (timeSpent s) (curQ s) (Js.plus (Js.get (timeSpent s) (curQ s)) delta)) s.

(** [loadQ(idx)]; [now] is the clock reading taken when the question
    changes.  [q.comp] throws when there is no question [idx]. *)
Definition loadQ (idx : nat) (now : Z) (s : TestApp) : outcome :=
  let s1 := if (curQ s =? idx)%nat then s else set_lastQTime now (flush now s) in
  let s2 := set_curQ idx s1 in
  match qs s2 !! idx with
  | None => Threw s2
  | Some q => loadOpts (Some q) idx s2
  end.

(** [selOpt(optIdx, qIdx)]. *)
Definition selOpt (optIdx qIdx : nat) (s : TestApp) : outcome :=
  if sub s then Done s
  else
    let k := Js.of_nat optIdx in
    let cell := if Js.strict_eq (Js.get (ans s) qIdx) k then VNull else k in
    let s1 := set_ans (Js.set (ans s) qIdx cell) s in
    loadOpts (qs s1 !! qIdx) qIdx s1.

(** [toggleReview()]. *)
Definition toggleReview (s : TestApp) : TestApp :=
  if sub s then s
  else set_reviewed
         (Js.set (reviewed s) (curQ s) (Js.not (Js.get (reviewed s) (curQ s)))) s.

(** [nav(dir)]. *)
Definition nav (dir : Z) (now : Z) (s : TestApp) : outcome :=
  let newIdx := Z.of_nat (curQ s) + dir in
  if (0 <=? newIdx) && (newIdx <? Z.of_nat (length (qs s)))
  then loadQ (Z.to_nat newIdx) now s
  else Done s.

(** [goToQ(idx)]; [closePanel] only touches the panel's class. *)
Definition goToQ (idx : nat) (now : Z) (s : TestApp) : outcome :=
  loadQ idx now s >>> Done.

(** [setLang(eng)] and [toggleTheme()]. *)
Definition setLang (e : bool) (now : Z) (s : TestApp) : outcome :=
  loadQ (curQ s) now (set_eng e s).

Definition toggleTheme (now : Z) (s : TestApp) : outcome :=
  let s1 := set_darkMode (negb (darkMode s)) s in
  loadQ (curQ s1) now s1.

(** [clearInterval(this.timer)] behind [if (this.timer)]. *)
Definition clear_timer (s : TestApp) : TestApp :=
  match timer s with
  | TNull => s
  | TLive | TStale => set_timer TStale s
  end.

(** [startTimer()]: the interval is registered; its callback is [tick]. *)
Definition startTimer (s : TestApp) : TestApp := set_timer TLive (clear_timer s).

(** [stopTimers()]. *)
Definition stopTimers (s : TestApp) : TestApp := clear_timer s.

(** *** Scoring *)

(** The running totals of [calcResults]. *)
Record Tally := {
  t_correct : nat;
  t_incorrect : nat;
  t_unattempted : nat;
  t_score : value
}.

Definition tally0 : Tally :=
  {| t_correct := 0; t_incorrect := 0; t_unattempted := 0; t_score := VNum 0 |}.

(** The callback of [this.qs.forEach((q, i) => ...)] for one question, given
    [userAns = this.ans[i]]. *)
Definition mark (marksPerQ negMark : value) (q : Question) (userAns : value)
    (t : Tally) : Tally :=
  let correctAns := correct_option_id q in
  if Js.strict_eq userAns VNull || Js.strict_eq userAns VUndef then
    {| t_correct := t_correct t; t_incorrect := t_incorrect t;
       t_unattempted := S (t_unattempted t); t_score := t_score t |}
  else if negb (Js.strict_eq correctAns VUndef) && negb (Js.strict_eq correctAns VNull)
          && Js.strict_eq userAns correctAns then
    {| t_correct := S (t_correct t); t_incorrect := t_incorrect t;
       t_unattempted := t_unattempted t; t_score := Js.plus (t_score t) marksPerQ |}
  else
    {| t_correct := t_correct t; t_incorrect := S (t_incorrect t);
       t_unattempted := t_unattempted t; t_score := Js.minus (t_score t) negMark |}.

(** The [forEach] itself, from index [i] on. *)
Fixpoint mark_all (marksPerQ negMark : value) (answers : list value) (i : nat)
    (l : list Question) (t : Tally) : Tally :=
  match l with
  | [] => t
  | q :: rest =>
      mark_all marksPerQ negMark answers (S i) rest
        (mark marksPerQ negMark q (Js.get answers i) t)
  end.

(** [calcResults()]; [now] is its own reading of the clock. *)
Definition calcResults (now : Z) (s : TestApp) : Result :=
  let timeTaken := Js.round (inject_Z (now - startT s) / 60000) in
  let marksPerQ := cfg_field marksPerQuestion (config s) in
  let negMark := cfg_field negativeMarking (config s) in
  let t := mark_all marksPerQ negMark (ans s) 0 (qs s) tally0 in
  {| score := Js.max (VNum 0) (t_score t);
     correct := t_correct t;
     incorrect := t_incorrect t;
     unattempted := t_unattempted t;
     timeTaken := timeTaken |}.

(** [showResults(results)]: the modal is filled and opened. *)
Definition showResults (r : Result) (s : TestApp) : TestApp :=
  set_page (set_modal true (set_results (Some r) (page s))) s.

(** [closeModal()]. *)
Definition closeModal (s : TestApp) : TestApp :=
  set_page (set_modal false (page s)) s.

(** [subTest()]; [now] is its reading of the clock, [now'] the one of
    [calcResults]. *)
Definition subTest (now now' : Z) (s : TestApp) : outcome :=
  if sub s then Done s
  else
    let s1 := flush now s in
    let s2 := stopTimers (set_sub true s1) in
    let r := calcResults now' s2 in
    let s3 := showResults r s2 in
    loadQ (curQ s3) now' s3.

(** [review()]. *)
Definition review (now : Z) (s : TestApp) : outcome :=
  loadQ 0 now (closeModal s).

(** The callback that [startTimer] registers, run once per second.  Its
    [clearInterval(this.timer)] has no test around it; on [null] it does
    nothing, as [clear_timer] does. *)
Definition tick (now now' : Z) (s : TestApp) : outcome :=
  let s1 := set_timeLeft (Js.minus (timeLeft s) (VNum 1)) s in
  if Js.le (timeLeft s1) (VNum 0) then subTest now now' (clear_timer s1)
  else Done s1.

(** *** Construction and start *)

(** [createGrid()] and [setupEvents()], as far as the page is modelled. *)
Definition createGrid (s : TestApp) : TestApp :=
  set_page (set_gridCells (length (qs s)) (page s)) s.

Definition setupEvents (s : TestApp) : TestApp :=
  set_page (set_wired true (page s)) s.

(** [init()]. *)
Definition init (now : Z) (s : TestApp) : outcome :=
  loadQ 0 now (startTimer (createGrid s)) >>> fun s' => Done (setupEvents s').

(** [new TestApp(data)]; [t0] and [t1] are the two readings of the clock,
    for [startT] and for [lastQTime]. *)
Definition constructor (data : Data.t) (t0 t1 : Z) : TestApp :=
  let cfg :=
    if cfg_truthy (Data.config data) then Data.config data
    else CfgObj (getDefaultConfig (Some (Data.questions data))) in
  let totalQ := length (Data.questions data) in
  {| config := cfg;
     qs := Data.questions data;
     curQ := 0;
     ans := Js.filled totalQ VNull;
     reviewed := Js.filled totalQ (VBool false);
     startT := t0;
     timeLeft := Js.times (cfg_field durationMinutes cfg) (VNum 60);
     timeSpent := Js.filled totalQ (VNum 0);
     lastQTime := t1;
     sub := false;
     eng := true;
     darkMode := false;
     timer := TNull;
     page := {| welcome := true; wired := false; gridCells := 0; optRows := None;
                results := None; modal := false |} |}.

(** ** The page's events *)

(** What can happen to a session once it is constructed, each with the
    clock readings its handler takes ([t], then [t'] for [calcResults]).
    The 300 ms between the click on the start button and [init] are folded
    into [Start]: nothing else can run in between, the other handlers being
    installed by [init]. *)
Inductive event :=
| Start (t : Z)                  (* the start button: [init()] *)
| Prev (t : Z)                   (* [nav(-1)] *)
| Next (t : Z)                   (* [nav(1)] *)
| Grid (i : nat) (t : Z)         (* grid cell [i]: [goToQ(i)] *)
| Pick (i : nat) (t : Z)         (* option row [i] of the question shown *)
| Flag (t : Z)                   (* the review button: [toggleReview()] *)
| Lang (e : bool) (t : Z)        (* [setLang(e)] *)
| Theme (t : Z)                  (* [toggleTheme()] *)
| Tick (t t' : Z)                (* the interval fires *)
| Submit (t t' : Z)              (* the submit button, confirmed: [subTest()] *)
| CloseModal (t : Z)             (* [closeModal()] *)
| Review (t : Z).                (* the modal's review button: [review()] *)

(** Whether the page can deliver the event.  Buttons that the code merely
    hides or disables (submit and review after submission, prev and next at
    the ends) stay deliverable: their handlers guard themselves. *)
Definition enabled (e : event) (s : TestApp) : bool :=
  match e with
  | Start _ => welcome (page s)
  | Prev _ | Next _ | Flag _ | Lang _ _ | Theme _ | Submit _ _ => wired (page s)
  | Grid i _ => (i <? gridCells (page s))%nat
  | Pick i _ =>
      match optRows (page s) with
      | Some (_, n) => (i <? n)%nat
      | None => false
      end
  | Tick _ _ =>
      match timer s with TLive => true | _ => false end
  | CloseModal _ | Review _ => wired (page s) && modal (page s)
  end.

(** The handler of each event. *)
Definition handle (e : event) (s : TestApp) : outcome :=
  match e with
  | Start t => init t (set_page (set_welcome false (page s)) s)
  | Prev t => nav (-1) t s
  | Next t => nav 1 t s
  | Grid i t => goToQ i t s
  | Pick i _ =>
      match optRows (page s) with
      | Some (qIdx, _) => selOpt i qIdx s
      | None => Done s
      end
  | Flag _ => Done (toggleReview s)
  | Lang e t => setLang e t s
  | Theme t => toggleTheme t s
  | Tick t t' => tick t t' s
  | Submit t t' => subTest t t' s
  | CloseModal _ => Done (closeModal s)
  | Review t => review t s
  end.

(** First and last clock reading of an event. *)
Definition ev_first (e : event) : Z :=
  match e with
  | Start t | Prev t | Next t | Grid _ t | Pick _ t | Flag t | Lang _ t | Theme t
  | Tick t _ | Submit t _ | CloseModal t | Review t => t
  end.

Definition ev_last (e : event) : Z :=
  match e with
  | Tick _ t' | Submit _ t' => t'
  | _ => ev_first e
  end.

(** A session together with the latest reading of the wall clock. *)
Record World := { clock : Z; app : TestApp }.

(** One event: it must be deliverable and the clock must not run backwards.
    An exception ends the handler; the state stays as the handler left it. *)
Definition step (e : event) (w : World) : option World :=
  if enabled e (app w) && (clock w <=? ev_first e) && (ev_first e <=? ev_last e)
  then Some {| clock := ev_last e; app := state_of (handle e (app w)) |}
  else None.

(** A run of events, oldest first. *)
Fixpoint exec (evs : list event) (w : World) : option World :=
  match evs with
  | [] => Some w
  | e :: rest =>
      match step e w with
      | Some w' => exec rest w'
      | None => None
      end
  end.

(** The world right after [new TestApp(data)]. *)
Definition boot (data : Data.t) (t0 t1 : Z) : World :=
  {| clock := t1; app := constructor data t0 t1 |}.

(** ** Scoring as the specification words it *)






(** An answer slot holds [null] or a number (an option index). *)
Definition is_answer (u : value) : bool :=
  match u with
  | VNull | VNum _ => true
  | _ => false
  end.



(** [s'] has the submission flag, the answers, the review flags and the
    displayed result of [s]. *)
Definition same_record (s s' : TestApp) : Prop :=
  sub s' = sub s /\ ans s' = ans s /\ reviewed s' = reviewed s /\
  results (page s') = results (page s).

(** [s'] has the config, the questions and the start time of [s]. *)
Definition same_payload (s s' : TestApp) : Prop :=
  config s' = config s /\ qs s' = qs s /\ startT s' = startT s.

(** ** Invariants of a running session *)

(** [u] is an answer that the rows of [q] can produce. *)
Definition answer_in_range (q : Question) (u : value) : Prop :=
  u = VNull \/
  exists (k : nat) (os : list string),
    u = Js.of_nat k /\ options q = Some os /\ (k < length os)%nat.

(** The rows with a click handler are the options of an existing question. *)
Definition rows_ok (s : TestApp) : Prop :=
  match optRows (page s) with
  | Some (qIdx, n) =>
      exists q os, qs s !! qIdx = Some q /\ options q = Some os /\ n = length os
  | None => True
  end.

(** While the welcome screen is up nothing but the start button works. *)
Definition idle (s : TestApp) : Prop :=
  timer s = TNull /\ wired (page s) = false /\ gridCells (page s) = 0%nat /\
  optRows (page s) = None /\ sub s = false.

(** The invariant that holds whatever the payload. *)
Definition InvCtl (s : TestApp) : Prop :=
  (welcome (page s) = true -> idle s) /\
  (sub s = true -> timer s <> TLive) /\
  rows_ok s /\
  length (ans s) = length (qs s) /\
  (forall i q, qs s !! i = Some q -> answer_in_range q (Js.get (ans s) i)).

(** The sum of [timeSpent], when every cell is a number. *)
Fixpoint total_time (l : list value) : option Q :=
  match l with
  | [] => Some 0%Q
  | VNum q :: rest => Qplus q <$> total_time rest
  | _ :: _ => None
  end.

(** The invariant of navigation, for a payload with at least one question. *)
Definition InvNav (s : TestApp) : Prop :=
  (curQ s < length (qs s))%nat /\
  (gridCells (page s) <= length (qs s))%nat /\
  length (timeSpent s) = length (qs s).




(** ** Sessions used as examples *)

(** A question with [n] options whose correct option is [c]. *)
Definition quiz (n : nat) (c : value) : Question :=
  {| question := "Q"; options := Some (replicate n "o"%string);
     correct_option_id := c; comp := None; solution := None |}.

Definition marking (minutes total perQ neg : Q) : json_config :=
  CfgObj {| testName := Some "Mock"%string; testId := Some "T1"%string;
            durationMinutes := VNum minutes; totalMarks := VNum total;
            marksPerQuestion := VNum perQ; negativeMarking := VNum neg;
            nameDisplay := Some "User"%string |}.

(** Ten questions, two marks each, half a mark off for a wrong answer. *)
Definition ten_data : Data.t :=
  {| Data.config := marking 10 20 2 (1 # 2);
     Data.questions :=
       map (fun c : Z => quiz 4 (VNum (inject_Z c))) [0; 1; 2; 3; 0; 1; 2; 3; 0; 1] |}.

(** The candidate answers six questions rightly, three wrongly, and leaves
    the last one open. *)
Definition ten_events : list event :=
  [ Start 1000;
    Pick 0 2000; Next 3000; Pick 1 4000; Next 5000; Pick 2 6000; Next 7000;
    Pick 3 8000; Next 9000; Pick 0 10000; Next 11000; Pick 1 12000; Next 13000;
    Pick 0 14000; Next 15000; Pick 0 16000; Next 17000; Pick 1 18000; Next 19000 ].

Definition ten_world : World :=
  default (boot ten_data 0 0) (exec ten_events (boot ten_data 0 0)).

(** Three questions, one minute, one mark each, a quarter off. *)
Definition three_data : Data.t :=
  {| Data.config := marking 1 3 1 (1 # 4);
     Data.questions := [quiz 4 (VNum 1); quiz 4 (VNum 2); quiz 4 (VNum 0)] |}.

(** The session once started, and once option 1 of the first question is
    selected. *)
Definition three_started : World :=
  default (boot three_data 0 0) (exec [Start 0] (boot three_data 0 0)).

Definition three_picked : World :=
  default three_started (exec [Pick 1 1000] three_started).

(** The same session one second before its minute is over: the interval
    has fired 59 times, two questions are still open. *)
Definition three_last_second : World :=
  default three_picked
    (exec (map (fun k => Tick (1000 + 1000 * Z.of_nat k) (1000 + 1000 * Z.of_nat k))
               (seq 1 59)) three_picked).

(** The three-question session walked through for 12 s, not yet submitted. *)
Definition three_walk_events : list event :=
  [Start 0; Next 4000; Pick 2 6000; Next 9500; Prev 12000].

Definition three_walk : World :=
  default (boot three_data 0 0) (exec three_walk_events (boot three_data 0 0)).




(** ** What the page shows *)

(** The class [updateGrid] gives a grid cell; [CPlain] is the bare
    [q-num].  The class [ans] serves twice: answered before submission,
    answered correctly after it. *)
Inductive cell_class := CCur | CAns | CWrong | CReview | CUnattempted | CPlain.

(** [updateNum(el, i)] inside [updateGrid].  [None]: there is no question
    [i], and reading its [correct_option_id] throws. *)
Definition updateNum (s : TestApp) (i : nat) : option cell_class :=
  if (i =? curQ s)%nat then Some CCur
  else if sub s then
    if negb (Js.strict_eq (Js.get (ans s) i) VNull) then
      match qs s !! i with
      | None => None
      | Some q =>
          if negb (Js.strict_eq (correct_option_id q) VUndef) then
            if Js.strict_eq (Js.get (ans s) i) (correct_option_id q)
            then Some CAns else Some CWrong
          else Some CPlain
      end
    else Some CUnattempted
  else if Js.truthy (Js.get (reviewed s) i) then Some CReview
  else if negb (Js.strict_eq (Js.get (ans s) i) VNull) then Some CAns
  else Some CPlain.

(** [updateGrid()]: the classes of the cells, in order. *)
Definition updateGrid (s : TestApp) : option (list cell_class) :=
  mapM (updateNum s) (seq 0 (gridCells (page s))).

(** [updateNav()]. *)
Record NavButtons := {
  prevDisabled : bool;
  nextDisabled : bool;
  reviewShown : bool
}.

Definition updateNav (s : TestApp) : NavButtons :=
  {| prevDisabled := (curQ s =? 0)%nat;
     nextDisabled := (Z.of_nat (curQ s) =? Z.of_nat (length (qs s)) - 1);
     reviewShown := negb (sub s) |}.

(** [a.filter(f).length].  [filter] skips the holes of an array; in [ans]
    and [reviewed] a cell that reads [undefined] is such a hole (no method
    stores [undefined]), so [f] is written to reject [VUndef]. *)
Definition count_where (f : value -> bool) (a : list value) : nat :=
  length (List.filter f a).

(** The tests that the counts below filter by: [a === null], and
    [a !== null] on a cell that is not a hole. *)
Definition is_null (a : value) : bool := Js.strict_eq a VNull.

Definition is_given (a : value) : bool :=
  match a with
  | VUndef => false
  | _ => negb (Js.strict_eq a VNull)
  end.

(** [updateAnsCnt()]: the number shown as answered. *)
Definition updateAnsCnt (s : TestApp) : nat := count_where is_given (ans s).

(** The two counts of [confirmSub()]. *)
Definition unanswered (s : TestApp) : nat := count_where is_null (ans s).

Definition marked (s : TestApp) : nat := count_where Js.truthy (reviewed s).

(** The question [confirmSub()] asks. *)
Definition confirmMsg (s : TestApp) : string :=
  if (0 <? unanswered s)%nat && (0 <? marked s)%nat then
    "You have " +:+ pretty (unanswered s) +:+ " unanswered questions and "
      +:+ pretty (marked s) +:+ " marked for review. Submit anyway?"
  else if (0 <? unanswered s)%nat then
    "You have " +:+ pretty (unanswered s) +:+ " unanswered questions. Submit anyway?"
  else if (0 <? marked s)%nat then
    "You have " +:+ pretty (marked s) +:+ " questions marked for review. Submit anyway?"
  else "Submit test?".

(** [confirmSub()]; [accept] is what [confirm(msg)] returns. *)
Definition confirmSub (accept : bool) (now now' : Z) (s : TestApp) : outcome :=
  if accept then subTest now now' s else Done s.

(** The class flags [loadOpts] gives row [i] of question [q], shown as
    question [qIdx]. *)
Record RowClass := {
  cls_submitted : bool;
  cls_sel : bool;
  cls_correct : bool;
  cls_wrong : bool
}.

Definition optClass (s : TestApp) (q : Question) (qIdx i : nat) : RowClass :=
  let userAnswer := Js.get (ans s) qIdx in
  let correctAnswer := correct_option_id q in
  let known := sub s && negb (Js.strict_eq correctAnswer VUndef)
               && negb (Js.strict_eq correctAnswer VNull) in
  {| cls_submitted := sub s;
     cls_sel := Js.strict_eq userAnswer (Js.of_nat i);
     cls_correct := known && Js.strict_eq (Js.of_nat i) correctAnswer;
     cls_wrong := known && negb (Js.strict_eq (Js.of_nat i) correctAnswer)
                  && Js.strict_eq userAnswer (Js.of_nat i)
                  && negb (Js.strict_eq userAnswer correctAnswer) |}.

(** What [printTest()] decides for one question, given [userAns]:
    [isCorrect], the verdict it prints ([None]: none), and the border of
    option [j]. *)
Inductive border := Green | Red | Grey.

Definition print_isCorrect (q : Question) (userAns : value) : bool :=
  negb (Js.strict_eq userAns VNull)
  && negb (Js.strict_eq (correct_option_id q) VUndef)
  && Js.strict_eq userAns (correct_option_id q).

Definition print_verdict (q : Question) (userAns : value) : option bool :=
  if negb (Js.strict_eq userAns VNull)
     && negb (Js.strict_eq (correct_option_id q) VUndef)
  then Some (print_isCorrect q userAns)
  else None.

Definition print_border (q : Question) (userAns : value) (j : nat) : border :=
  if Js.strict_eq (Js.of_nat j) (correct_option_id q) then Green
  else if Js.strict_eq (Js.of_nat j) userAns then Red
  else Grey.

(** ** Loading the payload *)

(** The parsed body of the response; [raw_questions] is [None] when the key
    is missing or holds no array. *)
Record RawData := {
  raw_config : json_config;
  raw_questions : option (list Question)
}.

(** What [fetch] comes back with: a network failure, or a response that is
    [ok] or not, with a body that is a JSON object or not. *)
Inductive response :=
| NetworkError
| Http (ok : bool) (body : option RawData).

Inductive loaded :=
| Session (s : TestApp)
| ErrorScreen.

(** [loadTestData(JSON_URL)], given the response; [t0] and [t1] are the
    clock readings of the constructor. *)
Definition loadTestData (r : response) (t0 t1 : Z) : loaded :=
  match r with
  | Http true (Some d) =>
      match raw_questions d with
      | Some l =>
          Session (constructor {| Data.config := raw_config d; Data.questions := l |} t0 t1)
      | None => ErrorScreen
      end
  | _ => ErrorScreen
  end.



(** ** The carousel of the home page *)

Module Carousel.

(** The closure of [initHeroCarousel]: [current] ([None] is [NaN]), the
    number of slides, the handle [timer] ([false] is [null]), and, of the
    browser, how many intervals are live. *)
Record t := {
  current : option Z;
  total : nat;
  timer : bool;
  live : nat
}.

(** [goTo(n)]: [((n % total) + total) % total], with the sign of [%]
    following the dividend; [% 0] is [NaN]. *)
Definition goTo (n : option Z) (c : t) : t :=
  let tot := Z.of_nat (total c) in
  let cur :=
    match n with
    | Some n => if tot =? 0 then None else Some (Z.rem (Z.rem n tot + tot) tot)
    | None => None
    end in
  {| current := cur; total := total c; timer := timer c; live := live c |}.

Definition nextSlide (c : t) : t := goTo (Z.add 1 <$> current c) c.
Definition prevSlide (c : t) : t := goTo ((fun x => x - 1) <$> current c) c.

(** [stopAuto()] and [startAuto()]. *)
Definition stopAuto (c : t) : t :=
  if timer c
  then {| current := current c; total := total c; timer := false; live := pred (live c) |}
  else c.

Definition startAuto (c : t) : t :=
  let c' := stopAuto c in
  {| current := current c'; total := total c'; timer := true; live := S (live c') |}.

(** What the page delivers: a click on dot [idx] ([None]: its index does
    not parse), on an arrow, the interval firing, the pointer entering or
    leaving. *)
Inductive event :=
| Dot (idx : option Z)
| NextArrow
| PrevArrow
| AutoFire
| MouseEnter
| MouseLeave.

Definition enabled (e : event) (c : t) : bool :=
  match e with
  | AutoFire => (0 <? live c)%nat
  | _ => true
  end.

Definition handle (e : event) (c : t) : t :=
  match e with
  | Dot idx => startAuto (goTo idx (stopAuto c))
  | NextArrow => startAuto (nextSlide (stopAuto c))
  | PrevArrow => startAuto (prevSlide (stopAuto c))
  | AutoFire => nextSlide c
  | MouseEnter => stopAuto c
  | MouseLeave => startAuto c
  end.

(** The state after [goTo(0); startAuto()] on [n] slides. *)
Definition init (n : nat) : t :=
  startAuto (goTo (Some 0) {| current := Some 0; total := n; timer := false; live := 0 |}).

Fixpoint exec (evs : list event) (c : t) : option t :=
  match evs with
  | [] => Some c
  | e :: rest => if enabled e c then exec rest (handle e c) else None
  end.

End Carousel.

(** The ten-question session once submitted; the question shown is the
    last one. *)
Definition ten_done : World :=
  default ten_world (step (Submit 20000 20001) ten_world).

(** Every question has a review flag, and it is a boolean. *)
Definition flags_ok (s : TestApp) : Prop :=
  length (reviewed s) = length (qs s) /\
  forall i, (i < length (qs s))%nat -> exists b, reviewed s !! i = Some (VBool b).



(** A session without questions on which no button has a handler. *)
Definition dead (s : TestApp) : Prop :=
  qs s = [] /\ wired (page s) = false /\ gridCells (page s) = 0%nat /\
  optRows (page s) = None.

(** Every dot of the run carries an index that parses. *)
Definition dot_parses (e : Carousel.event) : bool :=
  match e with
  | Carousel.Dot None => false
  | _ => true
  end.

(** A slide index within the [n] slides. *)
Definition on_a_slide (n : nat) (c : Carousel.t) : Prop :=
  Carousel.total c = n /\
  exists k, Carousel.current c = Some k /\ 0 <= k < Z.of_nat n.

(** The modal holds a result exactly when the session is submitted, and
    the result accounts for every question. *)
Definition result_iff_submitted (s : TestApp) : Prop :=
  (sub s = false -> results (page s) = None) /\
  (sub s = true ->
   exists r, results (page s) = Some r /\
     (correct r + incorrect r + unattempted r = length (qs s))%nat).

(** * Properties *)

(** ** Arithmetic and arrays *)


Lemma minus_num a b : Js.minus (VNum a) (VNum b) = VNum (Qred (a - b)).
Proof. reflexivity. Qed.



Lemma get_set_same (a : list value) i v : Js.get (Js.set a i v) i = v.
Proof.
  unfold Js.get, Js.set. destruct (i <? length a)%nat eqn:E.
  - apply Nat.ltb_lt in E. by rewrite list_lookup_insert_eq.
  - apply Nat.ltb_ge in E.
    rewrite lookup_app_r by lia.
    rewrite lookup_app_r by (rewrite length_replicate; lia).
    rewrite length_replicate.
    replace (i - length a - (i - length a))%nat with 0%nat by lia. done.
Qed.

Lemma get_set_other (a : list value) i j v :
  i <> j -> (j < length a)%nat -> Js.get (Js.set a i v) j = Js.get a j.
Proof.
  intros Hne Hj. unfold Js.get, Js.set. destruct (i <? length a)%nat eqn:E.
  - by rewrite list_lookup_insert_ne.
  - by rewrite lookup_app_l.
Qed.

Lemma length_set_in (a : list value) i v :
  (i < length a)%nat -> length (Js.set a i v) = length a.
Proof.
  intros Hi. unfold Js.set. apply Nat.ltb_lt in Hi. rewrite Hi.
  apply length_insert.
Qed.

(** ** Scoring *)

Section Scoring.

Variables m n : Q.



End Scoring.




(** ** Construction *)

Lemma truthy_of_nat (k : nat) : Js.truthy (Js.of_nat k) = negb (k =? 0)%nat.
Proof. destruct k; reflexivity. Qed.

(** C8. Without a config the session derives one: [durationMinutes] and
    [totalMarks] are the number of questions (34 when there is none),
    [marksPerQuestion] is 1 and [negativeMarking] is 0.25; forty questions
    give 40, 40, 1 and 0.25. *)
Theorem C8_default_config (questions : list Question) (t0 t1 : Z) :
  let s := constructor {| Data.config := CfgAbsent; Data.questions := questions |} t0 t1 in
  let N := length questions in
  let perQ := Js.of_nat (if (N =? 0)%nat then 34%nat else N) in
  (exists c, config s = CfgObj c /\
     durationMinutes c = perQ /\ totalMarks c = perQ /\
     marksPerQuestion c = VNum 1 /\ negativeMarking c = VNum (1 # 4)) /\
  (N = 40%nat ->
     cfg_field durationMinutes (config s) = VNum 40 /\
     cfg_field totalMarks (config s) = VNum 40 /\
     cfg_field marksPerQuestion (config s) = VNum 1 /\
     cfg_field negativeMarking (config s) = VNum (1 # 4) /\
     timeLeft s = VNum 2400).
Proof.
  cbn zeta. unfold constructor. cbn [Data.config Data.questions cfg_truthy config timeLeft].
  split.
  - eexists. split; [reflexivity |].
    unfold getDefaultConfig. cbn [durationMinutes totalMarks marksPerQuestion negativeMarking].
    rewrite truthy_of_nat. destruct (length questions); cbn; auto.
  - intros HN. unfold getDefaultConfig, cfg_field.
    cbn [durationMinutes totalMarks marksPerQuestion negativeMarking].
    rewrite HN. vm_compute. auto.
Qed.

(** Forty questions and no [config] key. *)
Lemma C8_forty_questions_witness :
  let s := constructor {| Data.config := CfgAbsent;
                          Data.questions := replicate 40 (quiz 4 (VNum 0)) |} 0 0 in
  cfg_field durationMinutes (config s) = VNum 40 /\
  cfg_field totalMarks (config s) = VNum 40 /\
  cfg_field marksPerQuestion (config s) = VNum 1 /\
  cfg_field negativeMarking (config s) = VNum (1 # 4) /\
  timeLeft s = VNum 2400.
Proof.
  exact (proj2 (C8_default_config (replicate 40 (quiz 4 (VNum 0))) 0 0) eq_refl).
Defined.

(** C10. [data.config || getDefaultConfig(...)]: every falsy config (absent,
    [null], [false], [0], the empty string) is replaced by the derived
    default; a config object is kept as it is, so a key it lacks stays
    undefined in the session. *)
Theorem C10_config_or_default (c : json_config) (questions : list Question) (t0 t1 : Z) :
  let derived := CfgObj (getDefaultConfig (Some questions)) in
  let made c := constructor {| Data.config := c; Data.questions := questions |} t0 t1 in
  config (made c) = (if cfg_truthy c then c else derived) /\
  config (made CfgAbsent) = derived /\
  config (made CfgNull) = derived /\
  config (made (CfgBool false)) = derived /\
  config (made (CfgNum 0)) = derived /\
  config (made (CfgStr EmptyString)) = derived /\
  (forall o : Config,
     config (made (CfgObj o)) = CfgObj o /\
     (forall f : Config -> value, cfg_field f (config (made (CfgObj o))) = f o) /\
     timeLeft (made (CfgObj o)) = Js.times (durationMinutes o) (VNum 60)).
Proof.
  cbn zeta. unfold constructor. cbn [Data.config Data.questions config timeLeft].
  split; [reflexivity |]. do 5 (split; [reflexivity |]).
  intros o. cbn [cfg_truthy cfg_field]. auto.
Qed.

(** A config object that only names the test: nothing is defaulted, the
    clock and the marks are [NaN]. *)
Example config_missing_fields :
  let o := {| testName := Some "Quiz"%string; testId := None;
              durationMinutes := VUndef; totalMarks := VUndef;
              marksPerQuestion := VUndef; negativeMarking := VUndef;
              nameDisplay := None |} in
  let s := constructor {| Data.config := CfgObj o;
                          Data.questions := [quiz 4 (VNum 0)] |} 0 0 in
  config s = CfgObj o /\ timeLeft s = VNaN /\
  score (calcResults 0 (set_ans [VNum 0] s)) = VNaN.
Proof. vm_compute. auto. Qed.

(** ** What each method leaves alone *)

Ltac unfold_setters :=
  unfold set_curQ, set_ans, set_reviewed, set_timeLeft, set_timeSpent, set_lastQTime,
    set_sub, set_eng, set_darkMode, set_timer, set_page, set_welcome, set_wired,
    set_gridCells, set_optRows, set_results, set_modal in *.

Ltac unfold_methods :=
  unfold tick, subTest, review, init, setLang, toggleTheme, goToQ, nav, selOpt,
    toggleReview, loadQ, loadOpts, flush, showResults, closeModal, stopTimers,
    startTimer, clear_timer, createGrid, setupEvents, and_then in *.

(** Unfold a method, split on every test it makes, and simplify. *)
Ltac run_method :=
  unfold_methods; unfold_setters; cbn;
  repeat (case_match; cbn in *; try discriminate; simplify_eq);
  cbn in *.

Lemma loadOpts_fields q i s :
  let s' := state_of (loadOpts q i s) in
  config s' = config s /\ qs s' = qs s /\ curQ s' = curQ s /\ ans s' = ans s /\
  reviewed s' = reviewed s /\ startT s' = startT s /\ timeLeft s' = timeLeft s /\
  timeSpent s' = timeSpent s /\ lastQTime s' = lastQTime s /\ sub s' = sub s /\
  timer s' = timer s /\ results (page s') = results (page s) /\
  modal (page s') = modal (page s) /\ welcome (page s') = welcome (page s) /\
  wired (page s') = wired (page s) /\ gridCells (page s') = gridCells (page s).
Proof. run_method; repeat split; reflexivity. Qed.

Lemma loadQ_fields idx now s :
  let s' := state_of (loadQ idx now s) in
  config s' = config s /\ qs s' = qs s /\ curQ s' = idx /\ ans s' = ans s /\
  reviewed s' = reviewed s /\ startT s' = startT s /\ timeLeft s' = timeLeft s /\
  sub s' = sub s /\ timer s' = timer s /\ results (page s') = results (page s) /\
  modal (page s') = modal (page s) /\ welcome (page s') = welcome (page s) /\
  wired (page s') = wired (page s) /\ gridCells (page s') = gridCells (page s).
Proof. run_method; repeat split; reflexivity. Qed.

Lemma clear_timer_fields s :
  let s' := clear_timer s in
  timer s' <> TLive /\ config s' = config s /\ qs s' = qs s /\ curQ s' = curQ s /\
  ans s' = ans s /\ reviewed s' = reviewed s /\ startT s' = startT s /\
  timeLeft s' = timeLeft s /\ timeSpent s' = timeSpent s /\
  lastQTime s' = lastQTime s /\ sub s' = sub s /\ page s' = page s.
Proof.
  unfold clear_timer. destruct (timer s) eqn:Ht; cbn; rewrite ?Ht;
    repeat split; congruence.
Qed.

(** ** Selecting an option *)

Lemma strict_eq_of_nat k : Js.strict_eq (Js.of_nat k) (Js.of_nat k) = true.
Proof. cbn. apply Qeq_bool_iff. reflexivity. Qed.

Lemma selOpt_ans k i s :
  sub s = false ->
  ans (state_of (selOpt k i s)) =
  Js.set (ans s) i
    (if Js.strict_eq (Js.get (ans s) i) (Js.of_nat k) then VNull else Js.of_nat k).
Proof.
  intros Hs. unfold selOpt. rewrite Hs.
  match goal with |- ans (state_of (loadOpts ?q ?j ?s1)) = _ =>
    destruct (loadOpts_fields q j s1) as (_ & _ & _ & -> & _) end.
  reflexivity.
Qed.

Lemma selOpt_sub k i s : sub (state_of (selOpt k i s)) = sub s.
Proof.
  unfold selOpt. destruct (sub s) eqn:Hs; [exact Hs |].
  match goal with |- sub (state_of (loadOpts ?q ?j ?s1)) = _ =>
    destruct (loadOpts_fields q j s1) as (_ & _ & _ & _ & _ & _ & _ & _ & _ & -> & _) end.
  exact Hs.
Qed.

(** C4, as the code has it.  Before submission one [selOpt(k, i)] sets
    [ans[i]] to [k], unless it already is [k], in which case it clears it;
    two calls in succession therefore leave [ans[i]] null exactly when it was
    not [k] before, and restore [k] when it was.  Other slots are untouched. *)
Theorem C4_selOpt_toggle (s : TestApp) (i k : nat) :
  sub s = false ->
  let once := state_of (selOpt k i s) in
  let twice := state_of (selOpt k i once) in
  let was_k := Js.strict_eq (Js.get (ans s) i) (Js.of_nat k) in
  Js.get (ans once) i = (if was_k then VNull else Js.of_nat k) /\
  Js.get (ans twice) i = (if was_k then Js.of_nat k else VNull) /\
  (forall j, j <> i -> (j < length (ans s))%nat ->
     Js.get (ans once) j = Js.get (ans s) j).
Proof.
  intros Hs. cbn zeta.
  assert (Hs1 : sub (state_of (selOpt k i s)) = false) by (rewrite selOpt_sub; exact Hs).
  rewrite (selOpt_ans k i _ Hs1), !(selOpt_ans k i s Hs), !get_set_same.
  split; [reflexivity |]. split.
  - destruct (Js.strict_eq (Js.get (ans s) i) (Js.of_nat k)); [reflexivity |].
    now rewrite strict_eq_of_nat.
  - intros j Hj Hlen. apply get_set_other; [congruence | exact Hlen].
Qed.

(** From an open first question, two clicks on option 1 select it and
    clear it again. *)
Lemma C4_toggle_witness :
  sub (app three_started) = false /\
  Js.get (ans (state_of (selOpt 1 0 (app three_started)))) 0 = VNum 1 /\
  Js.get (ans (state_of (selOpt 1 0 (state_of (selOpt 1 0 (app three_started)))))) 0
  = VNull.
Proof.
  split; [reflexivity |].
  destruct (C4_selOpt_toggle (app three_started) 0 1 eq_refl) as (H1 & H2 & _).
  split; [exact H1 | exact H2].
Defined.

(** Where two calls do not end on null: option 1 of the first question is
    already selected; the first call clears it, the second selects it again. *)
Lemma C4_twice_not_null :
  sub (app three_picked) = false /\
  Js.get (ans (app three_picked)) 0 = VNum 1 /\
  Js.get (ans (state_of (selOpt 1 0 (app three_picked)))) 0 = VNull /\
  Js.get (ans (state_of (selOpt 1 0 (state_of (selOpt 1 0 (app three_picked)))))) 0
  = VNum 1 /\
  Js.get (ans (state_of (selOpt 1 0 (state_of (selOpt 1 0 (app three_picked)))))) 0
  <> VNull.
Proof. vm_compute. repeat split; discriminate. Qed.

(** ** The control invariant *)

Lemma constructor_ctl data t0 t1 : InvCtl (constructor data t0 t1).
Proof.
  unfold InvCtl, idle, rows_ok, constructor; cbn.
  split; [auto |]. split; [discriminate |]. split; [exact I |].
  split; [apply length_replicate |].
  intros i q Hq. left. unfold Js.get, Js.filled.
  apply lookup_lt_Some in Hq. by rewrite lookup_replicate_2.
Qed.

(** Before the start only [Start] can be delivered. *)
Lemma enabled_before_start e s :
  InvCtl s -> welcome (page s) = true -> enabled e s = true -> exists t, e = Start t.
Proof.
  intros (Hw & _) Hwel He. destruct (Hw Hwel) as (Ht & Hwi & Hg & Ho & _).
  destruct e; cbn in He; rewrite ?Ht, ?Hwi, ?Hg, ?Ho in He; try discriminate; eauto.
Qed.

Lemma loadOpts_ctl i s :
  welcome (page s) = false -> InvCtl s -> InvCtl (state_of (loadOpts (qs s !! i) i s)).
Proof.
  intros Hwel (_ & Hsub & _ & Hlen & Hans).
  destruct (loadOpts_fields (qs s !! i) i s)
    as (_ & Eqs & _ & Eans & _ & _ & _ & _ & _ & Esub & Etimer & _ & _ & Ewel & _).
  unfold InvCtl. rewrite Eqs, Eans, Esub, Etimer, Ewel.
  split; [congruence |]. split; [exact Hsub |]. split; [| auto].
  unfold rows_ok. rewrite Eqs. unfold loadOpts.
  destruct (qs s !! i) as [q |] eqn:Hq; cbn; [| exact I].
  destruct (options q) as [os |] eqn:Hos; cbn; [| exact I].
  destruct (sub s); cbn; [exact I |]. eauto.
Qed.

(** The invariant only reads the welcome flag, the timer, the rows, [sub],
    [ans] and [qs]. *)
Lemma ctl_transfer s s' :
  InvCtl s ->
  welcome (page s') = false -> qs s' = qs s -> ans s' = ans s ->
  (sub s' = true -> timer s' <> TLive) -> rows_ok s' ->
  InvCtl s'.
Proof.
  intros (_ & _ & _ & Hlen & Hans) Hwel Eqs Eans Hsub Hrows.
  unfold InvCtl. rewrite Eqs, Eans, Hwel.
  split; [discriminate |]. auto.
Qed.

Lemma loadQ_ctl idx now s :
  welcome (page s) = false -> InvCtl s -> InvCtl (state_of (loadQ idx now s)).
Proof.
  intros Hwel Hinv. unfold loadQ.
  set (s1 := if (curQ s =? idx)%nat then s else set_lastQTime now (flush now s)).
  assert (H1 : InvCtl (set_curQ idx s1)).
  { pose proof Hinv as (_ & Hsub & Hrows & _).
    apply (ctl_transfer s); [exact Hinv | ..];
      subst s1; unfold rows_ok in *; destruct (curQ s =? idx)%nat; cbn; auto. }
  destruct (qs (set_curQ idx s1) !! idx) as [q |] eqn:Hq; [| exact H1].
  rewrite <- Hq. apply loadOpts_ctl; [| exact H1].
  subst s1; destruct (curQ s =? idx)%nat; cbn; auto.
Qed.

Lemma selOpt_ctl k qIdx n s :
  welcome (page s) = false -> InvCtl s ->
  optRows (page s) = Some (qIdx, n) -> (k < n)%nat ->
  InvCtl (state_of (selOpt k qIdx s)).
Proof.
  intros Hwel Hinv Hrow Hk. unfold selOpt. destruct (sub s) eqn:Hsub; [exact Hinv |].
  set (cell := if Js.strict_eq _ _ then _ else _).
  apply (loadOpts_ctl qIdx (set_ans (Js.set (ans s) qIdx cell) s)); [exact Hwel |].
  destruct Hinv as (Hw & Hs & Hrows & Hlen & Hans).
  pose proof Hrows as Hr. unfold rows_ok in Hr. rewrite Hrow in Hr.
  destruct Hr as (q & os & Hq & Hos & ->).
  assert (Hlt : (qIdx < length (ans s))%nat)
    by (rewrite Hlen; eapply lookup_lt_Some; exact Hq).
  unfold InvCtl; cbn. rewrite Hwel, Hsub.
  split; [discriminate |]. split; [discriminate |]. split; [exact Hrows |].
  split; [rewrite length_set_in; auto |].
  intros i q' Hq'. destruct (decide (i = qIdx)) as [-> |Hne].
  - rewrite get_set_same. assert (q' = q) as -> by congruence.
    subst cell. destruct (Js.strict_eq _ _); [by left |]. right. eauto.
  - rewrite get_set_other; [auto | congruence |].
    rewrite Hlen. eapply lookup_lt_Some; exact Hq'.
Qed.

Lemma clear_timer_ctl s :
  welcome (page s) = false -> InvCtl s -> InvCtl (clear_timer s).
Proof.
  intros Hwel Hinv. pose proof Hinv as (_ & _ & Hrows & _).
  destruct (clear_timer_fields s)
    as (Ht & _ & Eqs & _ & Eans & _ & _ & _ & _ & _ & Esub & Epage).
  apply (ctl_transfer s); auto.
  - by rewrite Epage.
  - unfold rows_ok in *. by rewrite Epage, Eqs.
Qed.

Lemma subTest_ctl t t' s :
  welcome (page s) = false -> InvCtl s -> InvCtl (state_of (subTest t t' s)).
Proof.
  intros Hwel Hinv. unfold subTest. destruct (sub s) eqn:Hsub; [exact Hinv |].
  pose proof Hinv as (_ & _ & Hrows & _).
  set (s2 := stopTimers (set_sub true (flush t s))).
  destruct (clear_timer_fields (set_sub true (flush t s)))
    as (Ht & _ & Eqs & _ & Eans & _ & _ & _ & _ & _ & Esub & Epage).
  fold (stopTimers (set_sub true (flush t s))) in Ht, Eqs, Eans, Esub, Epage.
  fold s2 in Ht, Eqs, Eans, Esub, Epage. cbn in Eqs, Eans, Esub, Epage.
  apply loadQ_ctl.
  - unfold showResults. cbn. by rewrite Epage.
  - apply (ctl_transfer s); auto.
    + unfold showResults. cbn. by rewrite Epage.
    + unfold rows_ok, showResults in *. cbn. by rewrite Epage, Eqs.
Qed.

Lemma tick_ctl t t' s :
  welcome (page s) = false -> InvCtl s -> InvCtl (state_of (tick t t' s)).
Proof.
  intros Hwel Hinv. unfold tick.
  assert (H1 : InvCtl (set_timeLeft (Js.minus (timeLeft s) (VNum 1)) s)).
  { destruct Hinv as (Hw & Hs & Hrows & Hrest). apply (ctl_transfer s); unfold InvCtl; auto. }
  destruct (Js.le _ _); [| exact H1].
  apply subTest_ctl.
  - destruct (clear_timer_fields (set_timeLeft (Js.minus (timeLeft s) (VNum 1)) s))
      as (_ & _ & _ & _ & _ & _ & _ & _ & _ & _ & _ & ->). exact Hwel.
  - apply clear_timer_ctl; [exact Hwel | exact H1].
Qed.

Lemma init_ctl t s :
  InvCtl s -> welcome (page s) = true ->
  InvCtl (state_of (init t (set_page (set_welcome false (page s)) s))).
Proof.
  intros Hinv Hwel. pose proof Hinv as (Hw & _).
  destruct (Hw Hwel) as (Ht & Hwi & Hg & Ho & Hsub).
  unfold init.
  set (s0 := startTimer (createGrid (set_page (set_welcome false (page s)) s))).
  assert (H0 : InvCtl s0).
  { apply (ctl_transfer s); auto; subst s0; unfold startTimer, clear_timer, createGrid; cbn;
      rewrite ?Ht; cbn; try reflexivity.
    - rewrite Hsub. discriminate.
    - unfold rows_ok. cbn. rewrite Ho. exact I. }
  assert (Hw0 : welcome (page s0) = false).
  { subst s0. unfold startTimer, clear_timer, createGrid. cbn. rewrite Ht. reflexivity. }
  pose proof (loadQ_ctl 0 t s0 Hw0 H0) as H1.
  destruct (loadQ_fields 0 t s0) as (_ & _ & _ & _ & _ & _ & _ & _ & _ & _ & _ & Ewel & _).
  destruct (loadQ 0 t s0) as [s1 | s1]; cbn in *; [| exact H1].
  pose proof H1 as (_ & Hs1 & Hr1 & _).
  apply (ctl_transfer s1);
    [exact H1 | cbn; congruence | reflexivity | reflexivity | exact Hs1 | exact Hr1].
Qed.

(** Every deliverable event keeps the control invariant. *)
Lemma handle_ctl e s :
  InvCtl s -> enabled e s = true -> InvCtl (state_of (handle e s)).
Proof.
  intros Hinv He.
  destruct (welcome (page s)) eqn:Hwel.
  { destruct (enabled_before_start e s Hinv Hwel He) as [t ->]. cbn. by apply init_ctl. }
  destruct e; cbn [handle].
  - cbn in He. congruence.
  - unfold nav. destruct (_ && _); [by apply loadQ_ctl | exact Hinv].
  - unfold nav. destruct (_ && _); [by apply loadQ_ctl | exact Hinv].
  - unfold goToQ. pose proof (loadQ_ctl i t s Hwel Hinv) as H.
    destruct (loadQ i t s); exact H.
  - cbn in He. destruct (optRows (page s)) as [[qIdx n] |] eqn:Ho; [| discriminate].
    apply Nat.ltb_lt in He. by eapply selOpt_ctl.
  - cbn. unfold toggleReview. destruct (sub s) eqn:Hs; [exact Hinv |].
    destruct Hinv as (Hw & Hsb & Hrows & Hrest).
    apply (ctl_transfer s); unfold InvCtl; auto.
  - unfold setLang. apply loadQ_ctl; [exact Hwel |].
    destruct Hinv as (Hw & Hsb & Hrows & Hrest). apply (ctl_transfer s); unfold InvCtl; auto.
  - unfold toggleTheme. apply loadQ_ctl; [exact Hwel |].
    destruct Hinv as (Hw & Hsb & Hrows & Hrest). apply (ctl_transfer s); unfold InvCtl; auto.
  - by apply tick_ctl.
  - by apply subTest_ctl.
  - cbn. destruct Hinv as (Hw & Hsb & Hrows & Hrest).
    apply (ctl_transfer s); unfold InvCtl; auto.
  - unfold review. apply loadQ_ctl; [exact Hwel |].
    destruct Hinv as (Hw & Hsb & Hrows & Hrest). apply (ctl_transfer s); unfold InvCtl; auto.
Qed.

Lemma step_ctl e w w' : InvCtl (app w) -> step e w = Some w' -> InvCtl (app w').
Proof.
  unfold step. intros Hinv H.
  destruct (enabled e (app w)) eqn:He; cbn in H; [| discriminate].
  destruct (_ && _) in H; [| discriminate].
  injection H as <-. cbn. by apply handle_ctl.
Qed.

Lemma exec_ctl evs : forall w w', InvCtl (app w) -> exec evs w = Some w' -> InvCtl (app w').
Proof.
  induction evs as [| e rest IH]; intros w w' Hinv H; cbn in H.
  - by injection H as <-.
  - destruct (step e w) as [w1 |] eqn:Hs; [| discriminate].
    eapply IH; [| exact H]. eapply step_ctl; eauto.
Qed.

(** ** Navigation and timing *)






Lemma loadQ_nav idx now s :
  InvNav s -> (idx < length (qs s))%nat -> InvNav (state_of (loadQ idx now s)).
Proof.
  intros (Hc & Hg & Hl) Hidx.
  destruct (loadQ_fields idx now s)
    as (_ & Eqs & Ecur & _ & _ & _ & _ & _ & _ & _ & _ & _ & _ & Egrid).
  unfold InvNav. rewrite Eqs, Ecur, Egrid. split; [exact Hidx |]. split; [exact Hg |].
  unfold loadQ.
  set (s1 := if (curQ s =? idx)%nat then s else set_lastQTime now (flush now s)).
  assert (H1 : length (timeSpent (set_curQ idx s1)) = length (qs s)).
  { subst s1. destruct (curQ s =? idx)%nat; cbn; [exact Hl |].
    unfold Js.set. assert (Hb : (curQ s <? length (timeSpent s))%nat = true)
      by (apply Nat.ltb_lt; lia).
    rewrite Hb, length_insert. exact Hl. }
  destruct (qs (set_curQ idx s1) !! idx) as [q |]; [| exact H1].
  destruct (loadOpts_fields (Some q) idx (set_curQ idx s1))
    as (_ & _ & _ & _ & _ & _ & _ & -> & _). exact H1.
Qed.


(** [loadQ] of the question already shown does not touch the timing. *)
Lemma loadQ_same now s :
  timeSpent (state_of (loadQ (curQ s) now s)) = timeSpent s /\
  lastQTime (state_of (loadQ (curQ s) now s)) = lastQTime s.
Proof.
  unfold loadQ. rewrite Nat.eqb_refl.
  destruct (qs (set_curQ (curQ s) s) !! curQ s) as [q |]; [| split; reflexivity].
  destruct (loadOpts_fields (Some q) (curQ s) (set_curQ (curQ s) s))
    as (_ & _ & _ & _ & _ & _ & _ & -> & -> & _). split; reflexivity.
Qed.

(** What [subTest] does to an unsubmitted session. *)
Lemma subTest_fields t t' s :
  sub s = false ->
  let s' := state_of (subTest t t' s) in
  sub s' = true /\ timer s' <> TLive /\ config s' = config s /\ qs s' = qs s /\
  curQ s' = curQ s /\ ans s' = ans s /\ reviewed s' = reviewed s /\
  startT s' = startT s /\ timeLeft s' = timeLeft s /\ lastQTime s' = lastQTime s /\
  timeSpent s' = timeSpent (flush t s) /\
  gridCells (page s') = gridCells (page s) /\ welcome (page s') = welcome (page s) /\
  wired (page s') = wired (page s) /\ modal (page s') = true /\
  results (page s') = Some (calcResults t' s).
Proof.
  intros Hs. cbn zeta. unfold subTest. rewrite Hs.
  set (s2 := stopTimers (set_sub true (flush t s))).
  destruct (clear_timer_fields (set_sub true (flush t s)))
    as (Ht & Ecfg & Eqs & Ecur & Eans & Erev & Est & Etl & Ets & Elast & Esub & Epage).
  fold (stopTimers (set_sub true (flush t s))) in Ht, Ecfg, Eqs, Ecur, Eans, Erev, Est, Etl,
    Ets, Elast, Esub, Epage.
  fold s2 in Ht, Ecfg, Eqs, Ecur, Eans, Erev, Est, Etl, Ets, Elast, Esub, Epage.
  cbn in Ecfg, Eqs, Ecur, Eans, Erev, Est, Etl, Ets, Elast, Esub, Epage.
  assert (Er : calcResults t' s2 = calcResults t' s).
  { unfold calcResults. rewrite Ecfg, Eqs, Eans, Est. reflexivity. }
  rewrite Er.
  set (s3 := showResults (calcResults t' s) s2).
  destruct (loadQ_fields (curQ s3) t' s3)
    as (-> & -> & -> & -> & -> & -> & -> & -> & -> & -> & -> & -> & -> & ->).
  destruct (loadQ_same t' s3) as (-> & ->).
  subst s3. unfold showResults. cbn. rewrite Epage.
  repeat split; try assumption; reflexivity.
Qed.

(** ** After submission *)

Lemma same_record_trans s1 s2 s3 :
  same_record s1 s2 -> same_record s2 s3 -> same_record s1 s3.
Proof. unfold same_record. intuition congruence. Qed.

Lemma loadQ_same_record idx now s : same_record s (state_of (loadQ idx now s)).
Proof.
  destruct (loadQ_fields idx now s)
    as (_ & _ & _ & Ea & Er & _ & _ & Es & _ & Eres & _).
  unfold same_record. auto.
Qed.

Lemma nav_same_record dir now s : same_record s (state_of (nav dir now s)).
Proof.
  unfold nav. destruct (_ && _); [apply loadQ_same_record |].
  unfold same_record. auto.
Qed.

Lemma init_same_record t s : same_record s (state_of (init t s)).
Proof.
  unfold init.
  set (s0 := startTimer (createGrid s)).
  assert (H0 : same_record s s0).
  { subst s0. unfold startTimer.
    destruct (clear_timer_fields (createGrid s))
      as (_ & _ & _ & _ & Ea & Er & _ & _ & _ & _ & Es & Ep).
    unfold same_record. cbn. rewrite Ea, Er, Es, Ep. auto. }
  pose proof (loadQ_same_record 0 t s0) as H1.
  destruct (loadQ 0 t s0) as [s1 | s1]; cbn in *;
    (eapply same_record_trans; [exact H0 |]); [| exact H1].
  destruct H1 as (? & ? & ? & ?). unfold same_record. cbn. auto.
Qed.

(** Once [sub] is set, no handler changes it, the answers, the review flags
    or the result on display. *)
Lemma handle_frozen e s :
  sub s = true -> same_record s (state_of (handle e s)).
Proof.
  intros Hs.
  assert (Hrefl : same_record s s) by (unfold same_record; auto).
  destruct e; cbn [handle].
  - eapply same_record_trans; [| apply init_same_record].
    unfold same_record. cbn. auto.
  - apply nav_same_record.
  - apply nav_same_record.
  - unfold goToQ. pose proof (loadQ_same_record i t s) as H.
    destruct (loadQ i t s); exact H.
  - destruct (optRows (page s)) as [[qIdx n] |]; [| exact Hrefl].
    unfold selOpt. rewrite Hs. exact Hrefl.
  - unfold toggleReview. rewrite Hs. exact Hrefl.
  - unfold setLang. eapply same_record_trans; [| apply loadQ_same_record].
    unfold same_record. cbn. auto.
  - unfold toggleTheme. eapply same_record_trans; [| apply loadQ_same_record].
    unfold same_record. cbn. auto.
  - unfold tick.
    set (s1 := set_timeLeft (Js.minus (timeLeft s) (VNum 1)) s).
    destruct (Js.le _ _); [| exact Hrefl].
    destruct (clear_timer_fields s1)
      as (_ & _ & _ & _ & Ea & Er & _ & _ & _ & _ & Es & Ep).
    unfold subTest. rewrite Es. subst s1. cbn [sub set_timeLeft]. rewrite Hs.
    unfold same_record. cbn [state_of]. rewrite Ea, Er, Es, Ep. cbn. auto.
  - unfold subTest. rewrite Hs. exact Hrefl.
  - unfold same_record. cbn. auto.
  - unfold review. eapply same_record_trans; [| apply loadQ_same_record].
    unfold same_record. cbn. auto.
Qed.

Lemma exec_frozen evs :
  forall w w', sub (app w) = true -> exec evs w = Some w' ->
    same_record (app w) (app w').
Proof.
  induction evs as [| e rest IH]; intros w w' Hs H; cbn in H.
  - injection H as <-. unfold same_record. auto.
  - unfold step in H. destruct (_ && _); [| discriminate].
    pose proof (handle_frozen e (app w) Hs) as H1.
    eapply same_record_trans; [exact H1 |].
    apply (IH {| clock := ev_last e; app := state_of (handle e (app w)) |} w');
      [| exact H].
    cbn. destruct H1 as (-> & _). exact Hs.
Qed.

(** C5. After [subTest] has run, [selOpt] and [toggleReview] change nothing,
    whatever their arguments or the question shown; a further [subTest]
    returns at once and leaves the result of the first call on display; and
    through any later events [sub] stays set while [ans], [reviewed] and the
    displayed result stay as they are.  A new session starts with [sub]
    unset. *)
Theorem C5_after_submit (s : TestApp) (t t' : Z) :
  let s1 := state_of (subTest t t' s) in
  sub s1 = true /\
  (sub s = false -> results (page s1) = Some (calcResults t' s)) /\
  (forall k i, selOpt k i s1 = Done s1) /\
  toggleReview s1 = s1 /\
  (forall u u', subTest u u' s1 = Done s1) /\
  (forall c evs w', exec evs {| clock := c; app := s1 |} = Some w' ->
     sub (app w') = true /\ ans (app w') = ans s1 /\ reviewed (app w') = reviewed s1 /\
     results (page (app w')) = results (page s1)) /\
  (forall data t0 t1, sub (constructor data t0 t1) = false).
Proof.
  cbn zeta.
  assert (H1 : sub (state_of (subTest t t' s)) = true).
  { destruct (sub s) eqn:Hs; [unfold subTest; rewrite Hs; exact Hs |].
    apply (subTest_fields t t' s Hs). }
  split; [exact H1 |]. split; [intros Hs; apply (subTest_fields t t' s Hs) |].
  split; [intros k i; unfold selOpt; rewrite H1; reflexivity |].
  split; [unfold toggleReview; rewrite H1; reflexivity |].
  split; [intros u u'; unfold subTest at 1; rewrite H1; reflexivity |].
  split; [| reflexivity].
  intros c evs w' He.
  destruct (exec_frozen evs {| clock := c; app := state_of (subTest t t' s) |} w' H1 He)
    as (Es & Ea & Er & Eres).
  cbn in Es, Ea, Er, Eres. rewrite Es. auto.
Qed.

(** Submitting the three-question session, then clicking on. *)
Lemma C5_after_submit_witness :
  let s1 := state_of (subTest 2000 2000 (app three_picked)) in
  sub (app three_picked) = false /\
  sub s1 = true /\
  selOpt 2 0 s1 = Done s1 /\ toggleReview s1 = s1 /\ subTest 9000 9000 s1 = Done s1 /\
  results (page s1) = Some (calcResults 2000 (app three_picked)).
Proof.
  cbn zeta.
  destruct (C5_after_submit (app three_picked) 2000 2000) as (H1 & H2 & H3 & H4 & H5 & _).
  split; [reflexivity |]. split; [exact H1 |]. split; [apply H3 |].
  split; [exact H4 |]. split; [apply H5 |]. apply H2. reflexivity.
Defined.

(** ** The countdown *)

Lemma calcResults_ext now s s' :
  config s' = config s -> qs s' = qs s -> ans s' = ans s -> startT s' = startT s ->
  calcResults now s' = calcResults now s.
Proof. intros E1 E2 E3 E4. unfold calcResults. rewrite E1, E2, E3, E4. reflexivity. Qed.

Lemma tick_disabled u u' w : timer (app w) <> TLive -> step (Tick u u') w = None.
Proof.
  intros H. unfold step. cbn [enabled]. destruct (timer (app w)); [| congruence |]; reflexivity.
Qed.

Lemma boot_ctl data t0 t1 evs w :
  exec evs (boot data t0 t1) = Some w -> InvCtl (app w).
Proof. apply exec_ctl. apply constructor_ctl. Qed.

(** C7. A tick takes one second off [timeLeft].  While more than a second is
    left afterwards nothing else happens; when the count reaches 0 the tick
    cancels the interval and submits: [sub] is set, the result on display is
    the one a manual submission at that moment computes, and the interval
    cannot fire again.  In every run, once [sub] is set no tick is
    deliverable. *)
Theorem C7_tick_forced_submit (s : TestApp) (t t' : Z) (q : Q) :
  timer s = TLive -> sub s = false -> timeLeft s = VNum q ->
  let s' := state_of (tick t t' s) in
  timeLeft s' = VNum (Qred (q - 1)) /\
  ((1 < q)%Q -> s' = set_timeLeft (VNum (Qred (q - 1))) s /\
                sub s' = false /\ timer s' = TLive) /\
  ((q <= 1)%Q ->
     sub s' = true /\ timer s' <> TLive /\
     results (page s') = Some (calcResults t' s) /\
     results (page (state_of (subTest t t' s))) = Some (calcResults t' s) /\
     forall c u u', step (Tick u u') {| clock := c; app := s' |} = None) /\
  (forall data t0 t1 evs w,
     exec evs (boot data t0 t1) = Some w -> sub (app w) = true ->
     forall u u', step (Tick u u') w = None).
Proof.
  intros Ht Hs Hq. cbn zeta. unfold tick. rewrite Hq, minus_num.
  set (s1 := set_timeLeft (VNum (Qred (q - 1))) s).
  change (Js.le (timeLeft s1) (VNum 0)) with (Qle_bool (Qred (q - 1)) 0).
  destruct (clear_timer_fields s1)
    as (_ & Ecfg & Eqs & _ & Eans & _ & Est & Etl & _ & _ & Esub & _).
  assert (Hs1 : sub (clear_timer s1) = false) by (rewrite Esub; exact Hs).
  destruct (subTest_fields t t' (clear_timer s1) Hs1)
    as (Fsub & Ftimer & _ & _ & _ & _ & _ & _ & Ftl & _ & _ & _ & _ & _ & _ & Fres).
  destruct (Qle_bool (Qred (q - 1)) 0) eqn:Hle.
  - apply Qle_bool_iff in Hle. rewrite Qred_correct in Hle.
    split; [rewrite Ftl, Etl; reflexivity |].
    split; [intros Hlt; exfalso; lra |].
    split.
    + intros _. split; [exact Fsub |]. split; [exact Ftimer |].
      split; [rewrite Fres; f_equal; apply calcResults_ext; assumption |].
      split; [apply (subTest_fields t t' s Hs) |].
      intros c u u'. apply tick_disabled. exact Ftimer.
    + intros data t0 t1 evs w He Hsub u u'. apply tick_disabled.
      pose proof (boot_ctl _ _ _ _ _ He) as (_ & H & _). auto.
  - assert (Hgt : ~ (q <= 1)%Q).
    { intros Hc. assert (Qle_bool (Qred (q - 1)) 0 = true); [| congruence].
      apply Qle_bool_iff. rewrite Qred_correct. lra. }
    cbn [state_of]. split; [reflexivity |].
    split; [intros _; split; [reflexivity |]; split; [exact Hs | exact Ht] |].
    split; [intros Hc; contradiction |].
    intros data t0 t1 evs w He Hsub u u'. apply tick_disabled.
    pose proof (boot_ctl _ _ _ _ _ He) as (_ & H & _). auto.
Qed.

(** The last second of the three-question session: the tick submits it with
    two questions unanswered. *)
Lemma C7_last_second_witness :
  let s := app three_last_second in
  let s' := state_of (tick 61000 61000 s) in
  timer s = TLive /\ sub s = false /\ timeLeft s = VNum 1 /\
  timeLeft s' = VNum 0 /\ sub s' = true /\ timer s' <> TLive /\
  results (page s') = Some (calcResults 61000 s) /\
  unattempted (calcResults 61000 s) = 2%nat.
Proof.
  cbn zeta.
  assert (H1 : timer (app three_last_second) = TLive) by (vm_compute; reflexivity).
  assert (H2 : sub (app three_last_second) = false) by (vm_compute; reflexivity).
  assert (H3 : timeLeft (app three_last_second) = VNum 1) by (vm_compute; reflexivity).
  destruct (C7_tick_forced_submit (app three_last_second) 61000 61000 1 H1 H2 H3)
    as (Htl & _ & Hforced & _).
  destruct Hforced as (Hsub & Htimer & Hres & _); [discriminate |].
  split; [exact H1 |]. split; [exact H2 |]. split; [exact H3 |].
  split; [exact Htl |]. split; [exact Hsub |]. split; [exact Htimer |].
  split; [exact Hres |]. vm_compute. reflexivity.
Defined.

(** ** The index stays in range *)

Lemma nav_transfer s s' :
  InvNav s ->
  qs s' = qs s -> curQ s' = curQ s ->
  (gridCells (page s') <= length (qs s))%nat ->
  length (timeSpent s') = length (timeSpent s) ->
  InvNav s'.
Proof.
  intros (Hc & Hg & Hl) Eqs Ecur Hgrid Elen.
  unfold InvNav. rewrite Eqs, Ecur, Elen. auto.
Qed.

Lemma flush_length now s :
  (curQ s < length (timeSpent s))%nat ->
  length (timeSpent (flush now s)) = length (timeSpent s).
Proof. intros Hi. unfold flush. cbn. by apply length_set_in. Qed.

Lemma selOpt_fields k i s :
  let s' := state_of (selOpt k i s) in
  qs s' = qs s /\ curQ s' = curQ s /\ startT s' = startT s /\
  timeSpent s' = timeSpent s /\ lastQTime s' = lastQTime s /\ sub s' = sub s /\
  gridCells (page s') = gridCells (page s).
Proof.
  cbn zeta. unfold selOpt. destruct (sub s) eqn:Hs; [cbn; auto 10 |].
  match goal with |- context [loadOpts ?q ?j ?s1] =>
    destruct (loadOpts_fields q j s1)
      as (_ & -> & -> & _ & _ & -> & _ & -> & -> & -> & _ & _ & _ & _ & _ & ->) end.
  cbn. auto 10.
Qed.

Lemma subTest_nav t t' s : InvNav s -> InvNav (state_of (subTest t t' s)).
Proof.
  intros Hinv. destruct (sub s) eqn:Hs; [unfold subTest; rewrite Hs; exact Hinv |].
  destruct (subTest_fields t t' s Hs)
    as (_ & _ & _ & Eqs & Ecur & _ & _ & _ & _ & _ & Ets & Eg & _).
  pose proof Hinv as (Hc & Hg & Hl).
  apply (nav_transfer s); auto; [lia |].
  rewrite Ets. apply flush_length. lia.
Qed.

(** Every deliverable event keeps the index of the question shown, the grid
    and [timeSpent] within the question list. *)
Lemma handle_nav e s :
  InvNav s -> enabled e s = true -> InvNav (state_of (handle e s)).
Proof.
  intros Hinv He. pose proof Hinv as (Hc & Hg & Hl).
  destruct e; cbn [handle].
  - unfold init.
    set (s0 := startTimer (createGrid (set_page (set_welcome false (page s)) s))).
    assert (H0 : InvNav s0).
    { subst s0. unfold startTimer.
      destruct (clear_timer_fields
                  (createGrid (set_page (set_welcome false (page s)) s)))
        as (_ & _ & Eqs & Ecur & _ & _ & _ & _ & Ets & _ & _ & Ep).
      apply (nav_transfer s); cbn; rewrite ?Eqs, ?Ecur, ?Ets, ?Ep; cbn; auto. }
    assert (H1 : InvNav (state_of (loadQ 0 t s0))).
    { apply loadQ_nav; [exact H0 |]. destruct H0 as (H0 & _). lia. }
    destruct (loadQ 0 t s0) as [s1 | s1]; cbn in *; [| exact H1].
    destruct H1 as (? & ? & ?). apply (nav_transfer s1); unfold InvNav; auto.
  - unfold nav. destruct (_ && _) eqn:Hb; [| exact Hinv].
    apply loadQ_nav; [exact Hinv | lia].
  - unfold nav. destruct (_ && _) eqn:Hb; [| exact Hinv].
    apply loadQ_nav; [exact Hinv | lia].
  - unfold goToQ. cbn in He. apply Nat.ltb_lt in He.
    assert (H1 : InvNav (state_of (loadQ i t s))) by (apply loadQ_nav; [exact Hinv | lia]).
    destruct (loadQ i t s); exact H1.
  - destruct (optRows (page s)) as [[qIdx n] |]; [| exact Hinv].
    destruct (selOpt_fields i qIdx s) as (Eqs & Ecur & _ & Ets & _ & _ & Eg).
    apply (nav_transfer s); auto; [lia | by rewrite Ets].
  - cbn. unfold toggleReview. destruct (sub s); [exact Hinv |].
    apply (nav_transfer s); auto.
  - unfold setLang. apply loadQ_nav; [| exact Hc]. apply (nav_transfer s); auto.
  - unfold toggleTheme. apply loadQ_nav; [| exact Hc]. apply (nav_transfer s); auto.
  - unfold tick. set (s1 := set_timeLeft (Js.minus (timeLeft s) (VNum 1)) s).
    assert (H1 : InvNav s1) by (apply (nav_transfer s); auto).
    destruct (Js.le _ _); [| exact H1].
    apply subTest_nav.
    destruct (clear_timer_fields s1) as (_ & _ & Eqs & Ecur & _ & _ & _ & _ & Ets & _ & _ & Ep).
    apply (nav_transfer s1); auto; [rewrite Ep; exact Hg | by rewrite Ets].
  - by apply subTest_nav.
  - cbn. apply (nav_transfer s); auto.
  - unfold review. apply loadQ_nav; [| cbn; lia]. apply (nav_transfer s); auto.
Qed.

Lemma constructor_nav data t0 t1 :
  Data.questions data <> [] -> InvNav (constructor data t0 t1).
Proof.
  intros Hne. unfold InvNav, constructor; cbn.
  split; [destruct (Data.questions data); [congruence | cbn; lia] |].
  split; [lia |]. apply length_replicate.
Qed.

Lemma exec_nav evs : forall w w', InvNav (app w) -> exec evs w = Some w' -> InvNav (app w').
Proof.
  induction evs as [| e rest IH]; intros w w' Hinv H; cbn in H.
  - by injection H as <-.
  - unfold step in H. destruct (enabled e (app w)) eqn:He; cbn in H; [| discriminate].
    destruct (_ && _) in H; [| discriminate].
    apply (IH {| clock := ev_last e; app := state_of (handle e (app w)) |} w'); [| exact H].
    cbn. by apply handle_nav.
Qed.

Lemma same_payload_trans s1 s2 s3 :
  same_payload s1 s2 -> same_payload s2 s3 -> same_payload s1 s3.
Proof. unfold same_payload. intuition congruence. Qed.

Lemma loadQ_payload idx now s : same_payload s (state_of (loadQ idx now s)).
Proof.
  destruct (loadQ_fields idx now s) as (E1 & E2 & _ & _ & _ & E3 & _).
  unfold same_payload. auto.
Qed.

Lemma subTest_payload t t' s : same_payload s (state_of (subTest t t' s)).
Proof.
  destruct (sub s) eqn:Hs.
  - unfold subTest. rewrite Hs. unfold same_payload. auto.
  - destruct (subTest_fields t t' s Hs) as (_ & _ & E1 & E2 & _ & _ & _ & E3 & _).
    unfold same_payload. auto.
Qed.

Lemma handle_payload e s : same_payload s (state_of (handle e s)).
Proof.
  assert (Hrefl : forall x, same_payload x x) by (unfold same_payload; auto).
  destruct e; cbn [handle].
  - unfold init.
    set (s0 := startTimer (createGrid (set_page (set_welcome false (page s)) s))).
    assert (H0 : same_payload s s0).
    { subst s0. unfold startTimer.
      destruct (clear_timer_fields
                  (createGrid (set_page (set_welcome false (page s)) s)))
        as (_ & E1 & E2 & _ & _ & _ & E3 & _).
      unfold same_payload. cbn. rewrite E1, E2, E3. auto. }
    pose proof (loadQ_payload 0 t s0) as H1.
    eapply same_payload_trans; [exact H0 |].
    destruct (loadQ 0 t s0) as [s1 | s1]; cbn in *; [| exact H1].
    destruct H1 as (? & ? & ?). unfold same_payload. auto.
  - unfold nav. destruct (_ && _); [apply loadQ_payload | apply Hrefl].
  - unfold nav. destruct (_ && _); [apply loadQ_payload | apply Hrefl].
  - unfold goToQ. pose proof (loadQ_payload i t s) as H.
    destruct (loadQ i t s); exact H.
  - destruct (optRows (page s)) as [[qIdx n] |]; [| apply Hrefl].
    unfold selOpt. destruct (sub s); [apply Hrefl |].
    match goal with |- context [loadOpts ?q ?j ?s1] =>
      destruct (loadOpts_fields q j s1) as (E1 & E2 & _ & _ & _ & E3 & _) end.
    unfold same_payload. rewrite E1, E2, E3. auto.
  - cbn. unfold toggleReview. destruct (sub s); [apply Hrefl |].
    unfold same_payload. auto.
  - unfold setLang. eapply same_payload_trans; [| apply loadQ_payload].
    unfold same_payload. auto.
  - unfold toggleTheme. eapply same_payload_trans; [| apply loadQ_payload].
    unfold same_payload. auto.
  - unfold tick. set (s1 := set_timeLeft (Js.minus (timeLeft s) (VNum 1)) s).
    destruct (Js.le _ _); [| unfold same_payload; auto].
    eapply same_payload_trans; [| apply subTest_payload].
    destruct (clear_timer_fields s1) as (_ & E1 & E2 & _ & _ & _ & E3 & _).
    unfold same_payload. rewrite E1, E2, E3. auto.
  - apply subTest_payload.
  - unfold same_payload. auto.
  - unfold review. eapply same_payload_trans; [| apply loadQ_payload].
    unfold same_payload. auto.
Qed.

Lemma exec_payload evs :
  forall w w', exec evs w = Some w' -> same_payload (app w) (app w').
Proof.
  induction evs as [| e rest IH]; intros w w' H; cbn in H.
  - injection H as <-. unfold same_payload. auto.
  - unfold step in H. destruct (_ && _); [| discriminate].
    eapply same_payload_trans; [apply (handle_payload e) |].
    apply (IH {| clock := ev_last e; app := state_of (handle e (app w)) |} w' H).
Qed.




(** ** Timing after submission *)

(** With no live interval no deliverable event touches [timeLeft]. *)
Lemma handle_timeLeft e s :
  timer s <> TLive -> enabled e s = true -> welcome (page s) = false ->
  timeLeft (state_of (handle e s)) = timeLeft s.
Proof.
  intros Ht He Hwel. destruct e; cbn [handle]; cbn in He; try congruence.
  - unfold nav. destruct (_ && _); [| reflexivity].
    destruct (loadQ_fields (Z.to_nat (Z.of_nat (curQ s) + -1)) t s)
      as (_ & _ & _ & _ & _ & _ & H & _). exact H.
  - unfold nav. destruct (_ && _); [| reflexivity].
    destruct (loadQ_fields (Z.to_nat (Z.of_nat (curQ s) + 1)) t s)
      as (_ & _ & _ & _ & _ & _ & H & _). exact H.
  - unfold goToQ. pose proof (loadQ_fields i t s) as (_ & _ & _ & _ & _ & _ & H & _).
    destruct (loadQ i t s); exact H.
  - destruct (optRows (page s)) as [[qIdx n] |]; [| reflexivity].
    unfold selOpt. destruct (sub s); [reflexivity |].
    match goal with |- context [loadOpts ?q ?j ?s1] =>
      destruct (loadOpts_fields q j s1) as (_ & _ & _ & _ & _ & _ & -> & _) end.
    reflexivity.
  - unfold toggleReview. destruct (sub s); reflexivity.
  - unfold setLang.
    destruct (loadQ_fields (curQ s) t (set_eng e s)) as (_ & _ & _ & _ & _ & _ & H & _).
    exact H.
  - unfold toggleTheme.
    destruct (loadQ_fields (curQ s) t (set_darkMode (negb (darkMode s)) s))
      as (_ & _ & _ & _ & _ & _ & H & _).
    exact H.
  - destruct (timer s); congruence.
  - destruct (sub s) eqn:Hs; [unfold subTest; rewrite Hs; reflexivity |].
    apply (subTest_fields t t' s Hs).
  - reflexivity.
  - unfold review.
    destruct (loadQ_fields 0 t (closeModal s)) as (_ & _ & _ & _ & _ & _ & H & _).
    exact H.
Qed.

(** The half of C3 that the code keeps: in every run, once [sub] is set,
    [timeLeft] no longer changes. *)
Lemma timeLeft_stops_after_submit evs :
  forall w w', InvCtl (app w) -> sub (app w) = true -> exec evs w = Some w' ->
    timeLeft (app w') = timeLeft (app w).
Proof.
  induction evs as [| e rest IH]; intros w w' Hinv Hs H; cbn in H.
  - by injection H as <-.
  - destruct (step e w) as [w1 |] eqn:Hstep; [| discriminate].
    pose proof (step_ctl e w w1 Hinv Hstep) as Hinv1.
    unfold step in Hstep. destruct (enabled e (app w)) eqn:He; cbn in Hstep; [| discriminate].
    destruct (_ && _) in Hstep; [| discriminate]. injection Hstep as <-.
    rewrite (IH _ w' Hinv1); [| | exact H]; cbn.
    + pose proof Hinv as (Hw & Hsub & _).
      apply handle_timeLeft; [auto | exact He |].
      destruct (welcome (page (app w))) eqn:Hwel; [| reflexivity].
      destruct (Hw eq_refl) as (_ & _ & _ & _ & Hf). congruence.
    + destruct (handle_frozen e (app w) Hs) as (-> & _). exact Hs.
Qed.

(** C3 on a session of three questions, submitted after 10 s on the first
    question and left for the next one 10 s later: the first question is
    charged 30 s, the 10 s before submission twice over, although only 20 s
    have passed since the start. *)
Lemma C3_review_navigation_adds_time :
  let w1 := default three_started
              (exec [Start 0; Submit 10000 10000] (boot three_data 0 0)) in
  let w2 := default w1 (exec [Next 20000] w1) in
  sub (app w1) = true /\
  Js.get (timeSpent (app w1)) 0 = VNum 10 /\
  Js.get (timeSpent (app w2)) 0 = VNum 30 /\
  clock w2 - startT (app w2) = 20000 /\
  timeLeft (app w2) = timeLeft (app w1).
Proof. vm_compute. repeat split; reflexivity. Qed.

(** ** Time spent against wall time *)















(** The same walk, evaluated: 12 s spent when 12 s have passed, 15 s spent
    at the submission 15 s after the start. *)
Example walk_times :
  Qred <$> total_time (timeSpent (app three_walk)) = Some 12%Q /\
  clock three_walk - startT (app three_walk) = 12000 /\
  (fun w' => Qred <$> total_time (timeSpent (app w')))
    <$> step (Submit 15000 15001) three_walk
  = Some (Some 15%Q).
Proof. vm_compute. repeat split; reflexivity. Qed.

(** ** A [correct_option_id] outside the options *)







(** ** A whole session *)

(** The ten-question session submitted after 20 s: the modal shows 10.5
    marks, 6 correct, 3 incorrect, 1 unattempted, 0 minutes. *)
Example ten_submitted :
  (fun w => (sub (app w), timer (app w), results (page (app w))))
    <$> step (Submit 20000 20001) ten_world
  = Some (true, TStale,
          Some {| score := VNum (21 # 2); correct := 6; incorrect := 3;
                  unattempted := 1; timeTaken := 0 |}).
Proof. vm_compute. reflexivity. Qed.

(** * Further properties of the code *)

(** ** Scoring, whatever [ans] holds *)

Section Totals.

Variables marksPerQ negMark : value.

Lemma mark_counts (q : Question) (u : value) (t : Tally) :
  (t_correct (mark marksPerQ negMark q u t) + t_incorrect (mark marksPerQ negMark q u t)
   + t_unattempted (mark marksPerQ negMark q u t)
   = S (t_correct t + t_incorrect t + t_unattempted t))%nat.
Proof. unfold mark. repeat case_match; cbn; lia. Qed.

Lemma mark_all_counts (answers : list value) (l : list Question) :
  forall i t,
    (t_correct (mark_all marksPerQ negMark answers i l t)
     + t_incorrect (mark_all marksPerQ negMark answers i l t)
     + t_unattempted (mark_all marksPerQ negMark answers i l t)
     = length l + (t_correct t + t_incorrect t + t_unattempted t))%nat.
Proof.
  induction l as [| q rest IH]; intros i t; cbn [mark_all length]; [lia |].
  rewrite IH, mark_counts. lia.
Qed.

End Totals.

Lemma counts_add_up (s : TestApp) (now : Z) :
  (correct (calcResults now s) + incorrect (calcResults now s)
   + unattempted (calcResults now s) = length (qs s))%nat.
Proof.
  unfold calcResults. cbn [correct incorrect unattempted].
  rewrite mark_all_counts. cbn. lia.
Qed.

(** Every question is counted once: correct, incorrect and unattempted add
    up to the number of questions, whatever the answers and the config, also
    when the marks are not numbers or [ans] has holes. *)
Theorem calcResults_counts_every_question (s : TestApp) (now : Z) :
  (correct (calcResults now s) + incorrect (calcResults now s)
   + unattempted (calcResults now s) = length (qs s))%nat.
Proof. apply counts_add_up. Qed.

Section ScoreBounds.

Variables m n : Q.



End ScoreBounds.



(** ** What [validateData] warns about *)

Lemma warnings_from_spec (l : list Question) :
  forall j i,
    In i (warnings_from j l) <->
    exists q, (j <= i)%nat /\ l !! (i - j)%nat = Some q /\ invalid_correct_option q = true.
Proof.
  induction l as [| q0 rest IH]; intros j i; cbn [warnings_from].
  - split; [intros [] | intros (q & _ & H & _); discriminate].
  - assert (Hrest : In i (warnings_from (S j) rest) <->
              exists q, (S j <= i)%nat /\ (q0 :: rest) !! (i - j)%nat = Some q /\
                        invalid_correct_option q = true).
    { rewrite IH. split; intros (q & Hle & Hl & Hq); exists q;
        (split; [exact Hle |]); (split; [| exact Hq]);
        replace (i - j)%nat with (S (i - S j)) in * by lia; exact Hl. }
    destruct (invalid_correct_option q0) eqn:E0.
    + cbn [In]. rewrite Hrest. split.
      * intros [<- | (q & Hle & Hl & Hq)].
        -- exists q0. rewrite Nat.sub_diag. auto.
        -- exists q. split; [lia | auto].
      * intros (q & Hle & Hl & Hq). destruct (decide (i = j)) as [-> | Hne]; [by left |].
        right. exists q. split; [lia | auto].
    + rewrite Hrest. split.
      * intros (q & Hle & Hl & Hq). exists q. split; [lia | auto].
      * intros (q & Hle & Hl & Hq). exists q. split; [| auto].
        destruct (decide (i = j)) as [-> | Hne]; [| lia].
        rewrite Nat.sub_diag in Hl. cbn in Hl. congruence.
Qed.

(** [validateData] warns about question [i] exactly when that question has
    an options array and its [correct_option_id], read as a number, is below
    0 or not below the number of options.  So a question without options or
    without a [correct_option_id] is never warned about, and a [null] id
    only when the options array is empty. *)
Theorem validateData_warns_exactly (s : TestApp) (i : nat) :
  (In i (validateData s) <->
   exists q os, qs s !! i = Some q /\ options q = Some os /\
     match Js.to_num (correct_option_id q) with
     | Some c => (c < 0 \/ inject_Z (Z.of_nat (length os)) <= c)%Q
     | None => False
     end) /\
  (forall q, qs s !! i = Some q ->
     (options q = None -> ~ In i (validateData s)) /\
     (correct_option_id q = VUndef -> ~ In i (validateData s)) /\
     (correct_option_id q = VNull ->
        (In i (validateData s) <-> options q = Some []))).
Proof.
  assert (Hinv : forall q,
            invalid_correct_option q = true <->
            exists os, options q = Some os /\
              match Js.to_num (correct_option_id q) with
              | Some c => (c < 0 \/ inject_Z (Z.of_nat (length os)) <= c)%Q
              | None => False
              end).
  { intros q. unfold invalid_correct_option, Js.lt, Js.le.
    destruct (options q) as [os |]; [| split; [discriminate | intros (? & ? & _); discriminate]].
    change (Js.to_num (VNum 0)) with (Some 0%Q).
    change (Js.to_num (Js.of_nat (length os)))
      with (Some (inject_Z (Z.of_nat (length os)))).
    destruct (Js.to_num (correct_option_id q)) as [c |].
    - rewrite orb_true_iff, negb_true_iff, Qle_bool_iff. split.
      + intros [H | H]; exists os; (split; [reflexivity |]); [left | right; exact H].
        destruct (Qlt_le_dec c 0) as [Hlt | Hge]; [exact Hlt |].
        apply Qle_bool_iff in Hge. congruence.
      + intros (os' & E & [H | H]); injection E as <-; [left | right; exact H].
        destruct (Qle_bool 0 c) eqn:E; [| reflexivity].
        apply Qle_bool_iff in E. lra.
    - split; [discriminate | intros (? & _ & [])]. }
  assert (Hin : In i (validateData s) <->
                exists q, qs s !! i = Some q /\ invalid_correct_option q = true).
  { unfold validateData. rewrite warnings_from_spec. rewrite Nat.sub_0_r.
    split; [intros (q & _ & H) | intros (q & H); exists q; split; [lia |]]; eauto. }
  split.
  - rewrite Hin. split.
    + intros (q & Hq & Hi). apply Hinv in Hi as (os & Ho & Hc). eauto.
    + intros (q & os & Hq & Ho & Hc). exists q. split; [exact Hq |].
      apply Hinv. eauto.
  - intros q Hq. rewrite Hin. split; [| split].
    + intros Ho (q' & Hq' & Hi). assert (q' = q) as -> by congruence.
      apply Hinv in Hi as (os & Ho' & _). congruence.
    + intros Hc (q' & Hq' & Hi). assert (q' = q) as -> by congruence.
      apply Hinv in Hi as (os & _ & Hn). rewrite Hc in Hn. exact Hn.
    + intros Hc. split.
      * intros (q' & Hq' & Hi). assert (q' = q) as -> by congruence.
        apply Hinv in Hi as (os & Ho & Hn). rewrite Hc in Hn. cbn in Hn.
        destruct Hn as [Hn | Hn]; [lra |].
        destruct os; [exact Ho |]. exfalso.
        assert (H1 : (0 < inject_Z (Z.of_nat (length (s0 :: os))))%Q)
          by (rewrite <- (Zlt_Qlt 0); cbn; lia).
        lra.
      * intros Ho. exists q. split; [exact Hq |]. apply Hinv. exists [].
        split; [exact Ho |]. rewrite Hc. right. apply Qle_refl.
Qed.

(** ** The grid, the printout and the score *)

Ltac split_answer u :=
  destruct u as [| | ? | ? |]; try discriminate.

(** After submission the grid tells, for every question but the one shown,
    what the score counted: the cell is [ans] exactly when the question was
    counted correct, [unattempted] exactly when it was counted unattempted,
    and a question counted incorrect is [wrong], unless it has no
    [correct_option_id], in which case the cell stays plain.  The cell of the
    question shown is [cur], whatever its answer. *)
Theorem grid_shows_what_was_scored (s : TestApp) (i : nat) (q : Question)
    (marksPerQ negMark : value) :
  sub s = true -> i <> curQ s -> qs s !! i = Some q ->
  is_answer (Js.get (ans s) i) = true ->
  let t := mark marksPerQ negMark q (Js.get (ans s) i) tally0 in
  (updateNum s i = Some CAns <-> t_correct t = 1%nat) /\
  (updateNum s i = Some CUnattempted <-> t_unattempted t = 1%nat) /\
  (updateNum s i = Some CWrong <->
     t_incorrect t = 1%nat /\ correct_option_id q <> VUndef) /\
  (updateNum s i = Some CPlain <->
     t_incorrect t = 1%nat /\ correct_option_id q = VUndef) /\
  updateNum s (curQ s) = Some CCur.
Proof.
  intros Hs Hi Hq Hu. cbn zeta. unfold updateNum, mark.
  rewrite Nat.eqb_refl, Hs, Hq.
  apply Nat.eqb_neq in Hi. rewrite Hi.
  split_answer (Js.get (ans s) i); cbn.
  - repeat split; try discriminate; try lia; intros (H & _); discriminate.
  - destruct (correct_option_id q) as [| | b | c |]; cbn;
      try (destruct (Qeq_bool q0 c)); cbn;
      repeat split; try discriminate; try lia; try congruence;
      try (intros (H & _); discriminate); try (intros (_ & H); congruence).
Qed.

(** The printout agrees with the score in the same way: it prints
    "Correct" exactly for the questions counted correct, "Incorrect" for those
    counted incorrect that have a [correct_option_id], and no verdict for the
    unattempted ones and for those without a [correct_option_id]. *)
Theorem printout_shows_what_was_scored (q : Question) (u : value)
    (marksPerQ negMark : value) :
  is_answer u = true ->
  let t := mark marksPerQ negMark q u tally0 in
  (print_verdict q u = Some true <-> t_correct t = 1%nat) /\
  (print_isCorrect q u = true <-> t_correct t = 1%nat) /\
  (print_verdict q u = Some false <->
     t_incorrect t = 1%nat /\ correct_option_id q <> VUndef) /\
  (print_verdict q u = None <->
     t_unattempted t = 1%nat \/
     (t_incorrect t = 1%nat /\ correct_option_id q = VUndef)).
Proof.
  intros Hu. cbn zeta. unfold print_verdict, print_isCorrect, mark.
  split_answer u; cbn.
  - repeat split; try discriminate; try lia; auto;
      try (intros (H & _); discriminate).
  - destruct (correct_option_id q) as [| | b | c |]; cbn;
      try (destruct (Qeq_bool q0 c)); cbn;
      repeat split; try discriminate; try lia; try congruence; auto;
      try (intros (H & _); discriminate); try (intros (_ & H); congruence);
      try (intros [H | (H & H')]; try discriminate; congruence).
Qed.

(** The submitted ten-question session: question 7, answered wrongly, is
    [wrong] in the grid and "Incorrect" in print. *)
Lemma grid_shows_what_was_scored_witness :
  sub (app ten_done) = true /\
  updateNum (app ten_done) 7 = Some CWrong /\
  updateGrid (app ten_done)
  = Some [CAns; CAns; CAns; CAns; CAns; CAns; CWrong; CWrong; CWrong; CCur].
Proof.
  split; [vm_compute; reflexivity |].
  destruct (grid_shows_what_was_scored (app ten_done) 7 (quiz 4 (VNum 3)) (VNum 2) (VNum (1 # 2)))
    as (_ & _ & (_ & H) & _);
    [vm_compute; reflexivity | vm_compute; discriminate | vm_compute; reflexivity
    | vm_compute; reflexivity |].
  split; [apply H; split; [vm_compute; reflexivity | discriminate] |].
  vm_compute. reflexivity.
Defined.

Lemma printout_shows_what_was_scored_witness :
  print_verdict (quiz 4 (VNum 3)) (Js.get (ans (app ten_done)) 7) = Some false /\
  print_verdict (quiz 4 (VNum 1)) (Js.get (ans (app ten_done)) 9) = None.
Proof.
  split.
  - destruct (printout_shows_what_was_scored (quiz 4 (VNum 3))
                (Js.get (ans (app ten_done)) 7) (VNum 2) (VNum (1 # 2)))
      as (_ & _ & (_ & H) & _); [vm_compute; reflexivity |].
    apply H. split; [vm_compute; reflexivity | discriminate].
  - destruct (printout_shows_what_was_scored (quiz 4 (VNum 1))
                (Js.get (ans (app ten_done)) 9) (VNum 2) (VNum (1 # 2)))
      as (_ & _ & _ & (_ & H)); [vm_compute; reflexivity |].
    apply H. left. vm_compute. reflexivity.
Defined.

(** ** The option rows on screen and in print *)

Lemma strict_eq_sym a b : Js.strict_eq a b = Js.strict_eq b a.
Proof.
  destruct a, b; cbn; try reflexivity.
  - destruct b, b0; reflexivity.
  - destruct (Qeq_bool q q0) eqn:E1; destruct (Qeq_bool q0 q) eqn:E2; try reflexivity.
    + apply Qeq_bool_iff in E1. symmetry in E1. apply Qeq_bool_iff in E1. congruence.
    + apply Qeq_bool_iff in E2. symmetry in E2. apply Qeq_bool_iff in E2. congruence.
Qed.

Lemma strict_eq_trans a b c :
  Js.strict_eq a b = true -> Js.strict_eq b c = true -> Js.strict_eq a c = true.
Proof.
  destruct a, b; cbn; try discriminate; destruct c; cbn; try discriminate; auto.
  - destruct b, b0, b1; auto.
  - intros H1 H2. apply Qeq_bool_iff in H1, H2. apply Qeq_bool_iff.
    by rewrite H1.
Qed.

(** After submission the rows of a question are marked on screen as they are
    in print, as long as the question has a [correct_option_id]: the row
    printed green is the row of class [correct], the row printed red the row
    of class [wrong].  Without a [correct_option_id] (absent or [null]) the
    screen marks no row, while the printout still frames the chosen row in
    red. *)
Theorem rows_on_screen_and_in_print (s : TestApp) (q : Question) (qIdx j : nat) :
  sub s = true ->
  let u := Js.get (ans s) qIdx in
  let r := optClass s q qIdx j in
  (correct_option_id q <> VUndef -> correct_option_id q <> VNull ->
     (cls_correct r = true <-> print_border q u j = Green) /\
     (cls_wrong r = true <-> print_border q u j = Red)) /\
  (correct_option_id q = VUndef \/ correct_option_id q = VNull ->
     cls_correct r = false /\ cls_wrong r = false /\
     print_border q u j = if Js.strict_eq u (Js.of_nat j) then Red else Grey).
Proof.
  intros Hs. cbn zeta. unfold optClass, print_border. rewrite Hs.
  cbn [cls_correct cls_wrong andb].
  set (u := Js.get (ans s) qIdx). set (c := correct_option_id q).
  rewrite (strict_eq_sym (Js.of_nat j) u).
  split.
  - intros Hc1 Hc2.
    assert (E1 : Js.strict_eq c VUndef = false) by (destruct c; try reflexivity; congruence).
    assert (E2 : Js.strict_eq c VNull = false) by (destruct c; try reflexivity; congruence).
    rewrite E1, E2. cbn [negb andb].
    destruct (Js.strict_eq (Js.of_nat j) c) eqn:Ejc; cbn [negb andb].
    + split; split; intros H; try reflexivity; discriminate H.
    + destruct (Js.strict_eq u (Js.of_nat j)) eqn:Euj; cbn [andb].
      * assert (Euc : Js.strict_eq u c = false).
        { destruct (Js.strict_eq u c) eqn:E; [| reflexivity].
          rewrite strict_eq_sym in Euj.
          pose proof (strict_eq_trans _ _ _ Euj E). congruence. }
        rewrite Euc. cbn [negb].
        split; split; intros H; try reflexivity; discriminate H.
      * split; split; intros H; discriminate H.
  - intros [Hc | Hc]; rewrite Hc; cbn [Js.strict_eq negb andb];
      (split; [reflexivity |]); (split; [reflexivity |]); reflexivity.
Qed.

(** Question 7 of the submitted session: option 3 is the right one, option 0
    was chosen. *)
Lemma rows_on_screen_and_in_print_witness :
  sub (app ten_done) = true /\
  cls_correct (optClass (app ten_done) (quiz 4 (VNum 3)) 7 3) = true /\
  cls_wrong (optClass (app ten_done) (quiz 4 (VNum 3)) 7 0) = true.
Proof.
  assert (Hs : sub (app ten_done) = true) by (vm_compute; reflexivity).
  split; [exact Hs |]. split.
  - destruct (rows_on_screen_and_in_print (app ten_done) (quiz 4 (VNum 3)) 7 3 Hs) as (H & _).
    destruct H as ((_ & H) & _); [discriminate | discriminate |].
    apply H. vm_compute. reflexivity.
  - destruct (rows_on_screen_and_in_print (app ten_done) (quiz 4 (VNum 3)) 7 0 Hs) as (H & _).
    destruct H as (_ & (_ & H)); [discriminate | discriminate |].
    apply H. vm_compute. reflexivity.
Defined.

(** ** The navigation buttons *)

(** While the question shown is one of the list, [updateNav] disables a
    button exactly when [nav] would reject its move: a disabled button's
    [nav] changes nothing, an enabled button's [nav] shows the neighbouring
    question. *)
Theorem buttons_disabled_when_nav_rejects (s : TestApp) (now : Z) :
  (curQ s < length (qs s))%nat ->
  (prevDisabled (updateNav s) = true -> nav (-1) now s = Done s) /\
  (prevDisabled (updateNav s) = false ->
     S (curQ (state_of (nav (-1) now s))) = curQ s) /\
  (nextDisabled (updateNav s) = true -> nav 1 now s = Done s) /\
  (nextDisabled (updateNav s) = false ->
     curQ (state_of (nav 1 now s)) = S (curQ s)).
Proof.
  intros Hc. unfold updateNav, nav. cbn [prevDisabled nextDisabled].
  split; [| split; [| split]].
  - intros H. apply Nat.eqb_eq in H. rewrite H. reflexivity.
  - intros H. apply Nat.eqb_neq in H.
    assert (E : (0 <=? Z.of_nat (curQ s) + -1) && (Z.of_nat (curQ s) + -1 <? Z.of_nat (length (qs s))) = true)
      by (apply andb_true_iff; split; [apply Z.leb_le | apply Z.ltb_lt]; lia).
    rewrite E.
    destruct (loadQ_fields (Z.to_nat (Z.of_nat (curQ s) + -1)) now s) as (_ & _ & -> & _).
    lia.
  - intros H. apply Z.eqb_eq in H.
    assert (E : (Z.of_nat (curQ s) + 1 <? Z.of_nat (length (qs s))) = false)
      by (apply Z.ltb_ge; lia).
    rewrite E, andb_false_r. reflexivity.
  - intros H. apply Z.eqb_neq in H.
    assert (E : (0 <=? Z.of_nat (curQ s) + 1) && (Z.of_nat (curQ s) + 1 <? Z.of_nat (length (qs s))) = true)
      by (apply andb_true_iff; split; [apply Z.leb_le | apply Z.ltb_lt]; lia).
    rewrite E.
    destruct (loadQ_fields (Z.to_nat (Z.of_nat (curQ s) + 1)) now s) as (_ & _ & -> & _).
    lia.
Qed.

(** On the first of three questions: Prev is disabled and does nothing,
    Next is enabled and shows the second question. *)
Lemma buttons_disabled_when_nav_rejects_witness :
  prevDisabled (updateNav (app three_started)) = true /\
  nav (-1) 1000 (app three_started) = Done (app three_started) /\
  nextDisabled (updateNav (app three_started)) = false /\
  curQ (state_of (nav 1 1000 (app three_started))) = 1%nat.
Proof.
  destruct (buttons_disabled_when_nav_rejects (app three_started) 1000)
    as (H1 & _ & _ & H4); [vm_compute; lia |].
  split; [reflexivity |]. split; [apply H1; reflexivity |].
  split; [reflexivity |]. apply H4. reflexivity.
Defined.

(** ** Language and theme *)

(** [loadQ] of the question shown only re-renders the option rows. *)
Lemma loadQ_shown now s :
  exists r, state_of (loadQ (curQ s) now s) = set_page (set_optRows r (page s)) s.
Proof.
  unfold loadQ. rewrite Nat.eqb_refl.
  destruct s as [cfg q c a rv st tl ts lq sb en dm tm pg]. destruct pg as [w wi g o rs md].
  cbn. destruct (q !! c) as [qq |]; cbn.
  - unfold loadOpts. cbn. destruct (options qq); cbn; [destruct sb; cbn |]; eauto.
  - by exists o.
Qed.

(** Switching the language or the theme changes that flag and re-renders
    the rows, nothing else: the answers, the review flags, the question shown,
    the time spent and the clock are what they were, and no time is read or
    charged, so the moment of the switch does not matter. *)
Theorem language_and_theme_keep_the_session (s : TestApp) (e : bool) (now now' : Z) :
  (exists r,
     state_of (setLang e now s) = set_page (set_optRows r (page s)) (set_eng e s)) /\
  (exists r,
     state_of (toggleTheme now s)
     = set_page (set_optRows r (page s)) (set_darkMode (negb (darkMode s)) s)) /\
  setLang e now s = setLang e now' s /\
  toggleTheme now s = toggleTheme now' s /\
  timeSpent (state_of (setLang e now s)) = timeSpent s /\
  lastQTime (state_of (setLang e now s)) = lastQTime s /\
  ans (state_of (setLang e now s)) = ans s /\
  timeSpent (state_of (toggleTheme now s)) = timeSpent s /\
  lastQTime (state_of (toggleTheme now s)) = lastQTime s /\
  ans (state_of (toggleTheme now s)) = ans s.
Proof.
  assert (Hnow : forall x, loadQ (curQ x) now x = loadQ (curQ x) now' x).
  { intros x. unfold loadQ. rewrite Nat.eqb_refl. reflexivity. }
  assert (EL : exists r,
            state_of (setLang e now s) = set_page (set_optRows r (page s)) (set_eng e s))
    by (unfold setLang; exact (loadQ_shown now (set_eng e s))).
  assert (ET : exists r,
            state_of (toggleTheme now s)
            = set_page (set_optRows r (page s)) (set_darkMode (negb (darkMode s)) s))
    by (unfold toggleTheme; exact (loadQ_shown now (set_darkMode (negb (darkMode s)) s))).
  split; [exact EL |]. split; [exact ET |].
  split; [unfold setLang; exact (Hnow (set_eng e s)) |].
  split; [unfold toggleTheme; exact (Hnow (set_darkMode (negb (darkMode s)) s)) |].
  destruct EL as (r1 & ->). destruct ET as (r2 & ->). cbn. auto 10.
Qed.

(** ** The counts on the page and in the result *)

Lemma mark_unattempted marksPerQ negMark q u t :
  is_answer u = true ->
  t_unattempted (mark marksPerQ negMark q u t)
  = ((if is_null u then 1 else 0) + t_unattempted t)%nat.
Proof.
  unfold mark, is_null. split_answer u; intros _; cbn; [reflexivity |].
  repeat case_match; reflexivity.
Qed.

Lemma mark_all_unattempted marksPerQ negMark (l : list Question) :
  forall (pre suf : list value) (t : Tally),
    length suf = length l ->
    forallb is_answer suf = true ->
    t_unattempted (mark_all marksPerQ negMark (pre ++ suf) (length pre) l t)
    = (count_where is_null suf + t_unattempted t)%nat.
Proof.
  induction l as [| q rest IH]; intros pre suf t Hlen Hall.
  - destruct suf; [reflexivity | discriminate].
  - destruct suf as [| u suf']; [discriminate |].
    cbn in Hlen, Hall. apply andb_true_iff in Hall as (Hu & Hall).
    cbn [mark_all].
    assert (Hget : Js.get (pre ++ u :: suf') (length pre) = u).
    { unfold Js.get. rewrite lookup_app_r, Nat.sub_diag by lia. reflexivity. }
    rewrite Hget.
    replace (pre ++ u :: suf') with ((pre ++ [u]) ++ suf') by (by rewrite <- app_assoc).
    replace (S (length pre)) with (length (pre ++ [u])) by (rewrite length_app; cbn; lia).
    rewrite IH; [| lia | exact Hall].
    rewrite mark_unattempted by exact Hu.
    unfold count_where. cbn [List.filter]. destruct (is_null u); cbn; lia.
Qed.

Lemma count_given_null (a : list value) :
  forallb is_answer a = true ->
  (count_where is_given a + count_where is_null a = length a)%nat.
Proof.
  unfold count_where. induction a as [| u rest IH]; intros H; [reflexivity |].
  cbn in H. apply andb_true_iff in H as (Hu & H). specialize (IH H).
  cbn [List.filter]. split_answer u; cbn; lia.
Qed.

(** In every state the page can reach, every slot of [ans] holds an
    answer. *)
Lemma reachable_answers data t0 t1 evs w :
  exec evs (boot data t0 t1) = Some w ->
  length (ans (app w)) = length (qs (app w)) /\
  forallb is_answer (ans (app w)) = true.
Proof.
  intros He. pose proof (boot_ctl _ _ _ _ _ He) as (_ & _ & _ & Hlen & Hans).
  split; [exact Hlen |]. apply forallb_forall. intros u Hu.
  apply list_elem_of_In, list_elem_of_lookup in Hu as (i & Hi).
  destruct (qs (app w) !! i) as [q |] eqn:Hq.
  - pose proof (Hans i q Hq) as Hr. unfold Js.get in Hr. rewrite Hi in Hr. cbn in Hr.
    destruct Hr as [-> | (k & os & -> & _)]; reflexivity.
  - apply lookup_ge_None in Hq. apply lookup_lt_Some in Hi. lia.
Qed.

(** In every run of the page, what the page says before submission is what
    the result will say: the number of unanswered questions that [confirmSub]
    counts is the result's [unattempted], the number [updateAnsCnt] shows as
    answered is [correct + incorrect], and the two add up to the number of
    questions.  [confirmSub] asks a bare "Submit test?" exactly when nothing
    is unanswered and nothing marked for review. *)
Theorem page_counts_match_result (data : Data.t) (t0 t1 : Z) (evs : list event)
    (w : World) (now : Z) :
  exec evs (boot data t0 t1) = Some w ->
  unanswered (app w) = unattempted (calcResults now (app w)) /\
  (updateAnsCnt (app w)
   = correct (calcResults now (app w)) + incorrect (calcResults now (app w)))%nat /\
  (updateAnsCnt (app w) + unanswered (app w) = length (Data.questions data))%nat /\
  (confirmMsg (app w) = "Submit test?"%string <->
   unanswered (app w) = 0%nat /\ marked (app w) = 0%nat).
Proof.
  intros He. destruct (reachable_answers _ _ _ _ _ He) as (Hlen & Hall).
  destruct (exec_payload evs _ _ He) as (_ & Eqs & _). cbn in Eqs.
  assert (H1 : unanswered (app w) = unattempted (calcResults now (app w))).
  { unfold calcResults. cbn [unattempted].
    pose proof (mark_all_unattempted (cfg_field marksPerQuestion (config (app w)))
                  (cfg_field negativeMarking (config (app w))) (qs (app w))
                  [] (ans (app w)) tally0 Hlen Hall) as H.
    change ([] ++ ans (app w)) with (ans (app w)) in H.
    change (length (@nil value)) with 0%nat in H.
    rewrite H. cbn. unfold unanswered. lia. }
  pose proof (count_given_null (ans (app w)) Hall) as H2.
  pose proof (counts_add_up (app w) now) as H3.
  assert (H4 : updateAnsCnt (app w) = count_where is_given (ans (app w))) by reflexivity.
  assert (H5 : unanswered (app w) = count_where is_null (ans (app w))) by reflexivity.
  split; [exact H1 |]. split; [lia |]. split; [rewrite <- Eqs; lia |].
  unfold confirmMsg.
  destruct (unanswered (app w)) as [| u]; destruct (marked (app w)) as [| r]; cbn [Nat.ltb Nat.leb andb].
  - split; auto.
  - split; [intros H; discriminate H | intros (_ & H); discriminate H].
  - split; [intros H; discriminate H | intros (H & _); discriminate H].
  - split; [intros H; discriminate H | intros (H & _); discriminate H].
Qed.

(** The walk through three questions: one answered, two open. *)
Lemma page_counts_match_result_witness :
  unanswered (app three_walk) = 2%nat /\
  unattempted (calcResults 15000 (app three_walk)) = 2%nat /\
  updateAnsCnt (app three_walk) = 1%nat /\
  confirmMsg (app three_walk)
  = "You have 2 unanswered questions. Submit anyway?"%string.
Proof.
  destruct (page_counts_match_result three_data 0 0 three_walk_events three_walk 15000)
    as (H1 & _); [vm_compute; reflexivity |].
  split; [vm_compute; reflexivity |]. split; [rewrite <- H1; vm_compute; reflexivity |].
  split; vm_compute; reflexivity.
Defined.

(** ** The three arrays and the review flags *)

(** Only the review button changes [reviewed]. *)
Lemma handle_keeps_reviewed e s :
  (forall t, e <> Flag t) -> reviewed (state_of (handle e s)) = reviewed s.
Proof.
  intros Hne. destruct e; cbn [handle].
  - unfold init.
    set (s0 := startTimer (createGrid (set_page (set_welcome false (page s)) s))).
    assert (E0 : reviewed s0 = reviewed s).
    { subst s0. unfold startTimer.
      destruct (clear_timer_fields (createGrid (set_page (set_welcome false (page s)) s)))
        as (_ & _ & _ & _ & _ & E & _). cbn. rewrite E. reflexivity. }
    destruct (loadQ_fields 0 t s0) as (_ & _ & _ & _ & E1 & _).
    destruct (loadQ 0 t s0) as [s1 | s1]; cbn in *; congruence.
  - unfold nav. destruct (_ && _); [| reflexivity].
    destruct (loadQ_fields (Z.to_nat (Z.of_nat (curQ s) + -1)) t s)
      as (_ & _ & _ & _ & E & _). exact E.
  - unfold nav. destruct (_ && _); [| reflexivity].
    destruct (loadQ_fields (Z.to_nat (Z.of_nat (curQ s) + 1)) t s)
      as (_ & _ & _ & _ & E & _). exact E.
  - unfold goToQ. destruct (loadQ_fields i t s) as (_ & _ & _ & _ & E & _).
    destruct (loadQ i t s); exact E.
  - destruct (optRows (page s)) as [[qIdx n] |]; [| reflexivity].
    unfold selOpt. destruct (sub s); [reflexivity |].
    match goal with |- context [loadOpts ?q ?j ?s1] =>
      destruct (loadOpts_fields q j s1) as (_ & _ & _ & _ & E & _) end.
    exact E.
  - exfalso. by apply (Hne t).
  - unfold setLang. destruct (loadQ_fields (curQ s) t (set_eng e s))
      as (_ & _ & _ & _ & E & _). exact E.
  - unfold toggleTheme.
    destruct (loadQ_fields (curQ s) t (set_darkMode (negb (darkMode s)) s))
      as (_ & _ & _ & _ & E & _). exact E.
  - unfold tick. set (s1 := set_timeLeft (Js.minus (timeLeft s) (VNum 1)) s).
    destruct (Js.le _ _); [| reflexivity].
    destruct (clear_timer_fields s1) as (_ & _ & _ & _ & _ & E & _ & _ & _ & _ & Es & _).
    destruct (sub (clear_timer s1)) eqn:Hs.
    + unfold subTest. rewrite Hs. exact E.
    + destruct (subTest_fields t t' (clear_timer s1) Hs) as (_ & _ & _ & _ & _ & _ & E' & _).
      rewrite E'. exact E.
  - destruct (sub s) eqn:Hs; [unfold subTest; rewrite Hs; reflexivity |].
    apply (subTest_fields t t' s Hs).
  - reflexivity.
  - unfold review. destruct (loadQ_fields 0 t (closeModal s)) as (_ & _ & _ & _ & E & _).
    exact E.
Qed.

Lemma not_bool b : Js.not (VBool b) = VBool (negb b).
Proof. reflexivity. Qed.

Lemma toggleReview_flags s :
  (curQ s < length (qs s))%nat -> flags_ok s -> flags_ok (toggleReview s).
Proof.
  intros Hc (Hlen & Hb). unfold toggleReview. destruct (sub s); [split; assumption |].
  unfold flags_ok. cbn [reviewed qs set_reviewed].
  destruct (Hb _ Hc) as (b & Eb).
  unfold Js.set, Js.get. rewrite Eb.
  assert (Hlt : (curQ s <? length (reviewed s))%nat = true) by (apply Nat.ltb_lt; lia).
  rewrite Hlt. split; [by rewrite length_insert |].
  intros i Hi. destruct (decide (i = curQ s)) as [-> | Hne].
  - eexists. rewrite list_lookup_insert_eq by lia. reflexivity.
  - rewrite list_lookup_insert_ne by congruence. auto.
Qed.

Lemma exec_flags evs :
  forall w w', InvNav (app w) -> flags_ok (app w) -> exec evs w = Some w' ->
    flags_ok (app w').
Proof.
  induction evs as [| e rest IH]; intros w w' Hn Hf H; cbn in H.
  - by injection H as <-.
  - unfold step in H. destruct (enabled e (app w)) eqn:He; cbn in H; [| discriminate].
    destruct (_ && _) in H; [| discriminate].
    apply (IH {| clock := ev_last e; app := state_of (handle e (app w)) |} w');
      [by apply handle_nav | | exact H].
    cbn [app].
    destruct (handle_payload e (app w)) as (_ & Eqs & _).
    assert (Hcase : (exists t, e = Flag t) \/ forall t, e <> Flag t)
      by (destruct e; eauto; right; intros; discriminate).
    destruct Hcase as [(t & ->) | Hne].
    + cbn. apply toggleReview_flags; [apply Hn | exact Hf].
    + unfold flags_ok. rewrite Eqs, (handle_keeps_reviewed e _ Hne). exact Hf.
Qed.

Lemma constructor_flags data t0 t1 : flags_ok (constructor data t0 t1).
Proof.
  unfold flags_ok, constructor. cbn. unfold Js.filled.
  split; [apply length_replicate |]. intros i Hi. exists false.
  by apply lookup_replicate_2.
Qed.

Lemma boot_nav data t0 t1 evs w :
  Data.questions data <> [] -> exec evs (boot data t0 t1) = Some w -> InvNav (app w).
Proof.
  intros Hne He. apply (exec_nav evs (boot data t0 t1) w); [| exact He].
  by apply constructor_nav.
Qed.

Lemma boot_flags data t0 t1 evs w :
  Data.questions data <> [] -> exec evs (boot data t0 t1) = Some w -> flags_ok (app w).
Proof.
  intros Hne He. apply (exec_flags evs (boot data t0 t1) w); [| | exact He].
  - by apply constructor_nav.
  - apply constructor_flags.
Qed.

(** In every run of the page over a non-empty question list the three
    arrays keep the length of the question list: no write ever lands past
    their end; and every review flag stays a boolean. *)
Theorem arrays_keep_their_length (data : Data.t) (t0 t1 : Z) (evs : list event)
    (w : World) :
  Data.questions data <> [] ->
  exec evs (boot data t0 t1) = Some w ->
  length (ans (app w)) = length (Data.questions data) /\
  length (reviewed (app w)) = length (Data.questions data) /\
  length (timeSpent (app w)) = length (Data.questions data) /\
  (forall i, (i < length (Data.questions data))%nat ->
     exists b, Js.get (reviewed (app w)) i = VBool b).
Proof.
  intros Hne He.
  destruct (exec_payload evs _ _ He) as (_ & Eqs & _). cbn in Eqs.
  pose proof (boot_ctl _ _ _ _ _ He) as (_ & _ & _ & Hlen & _).
  pose proof (boot_nav _ _ _ _ _ Hne He) as (_ & _ & Hts).
  pose proof (boot_flags _ _ _ _ _ Hne He) as (Hrv & Hb).
  rewrite <- Eqs. split; [exact Hlen |]. split; [exact Hrv |]. split; [exact Hts |].
  intros i Hi. destruct (Hb i Hi) as (b & E). exists b. unfold Js.get. by rewrite E.
Qed.

Lemma arrays_keep_their_length_witness :
  length (ans (app three_walk)) = 3%nat /\
  length (reviewed (app three_walk)) = 3%nat /\
  length (timeSpent (app three_walk)) = 3%nat.
Proof.
  destruct (arrays_keep_their_length three_data 0 0 three_walk_events three_walk)
    as (H1 & H2 & H3 & _); [discriminate | vm_compute; reflexivity |].
  split; [exact H1 |]. split; [exact H2 | exact H3].
Defined.

Lemma set_reviewed_id s : set_reviewed (reviewed s) s = s.
Proof. by destruct s. Qed.

(** In every such run, before submission, the review button is a toggle:
    pressed twice it leaves the session exactly as it was, and pressed once it
    flips the flag of the question shown and no other. *)
Theorem review_button_toggles (data : Data.t) (t0 t1 : Z) (evs : list event)
    (w : World) :
  Data.questions data <> [] ->
  exec evs (boot data t0 t1) = Some w ->
  sub (app w) = false ->
  toggleReview (toggleReview (app w)) = app w /\
  (exists b, Js.get (reviewed (app w)) (curQ (app w)) = VBool b /\
     Js.get (reviewed (toggleReview (app w))) (curQ (app w)) = VBool (negb b)) /\
  (forall j, j <> curQ (app w) ->
     Js.get (reviewed (toggleReview (app w))) j = Js.get (reviewed (app w)) j).
Proof.
  intros Hne He Hs.
  pose proof (boot_nav _ _ _ _ _ Hne He) as (Hc & _).
  pose proof (boot_flags _ _ _ _ _ Hne He) as (Hrv & Hb).
  destruct (Hb _ Hc) as (b & Eb).
  assert (Hlt : (curQ (app w) <? length (reviewed (app w)))%nat = true)
    by (apply Nat.ltb_lt; lia).
  assert (Hget : Js.get (reviewed (app w)) (curQ (app w)) = VBool b)
    by (unfold Js.get; by rewrite Eb).
  assert (E1 : toggleReview (app w)
               = set_reviewed (<[curQ (app w) := VBool (negb b)]> (reviewed (app w))) (app w)).
  { unfold toggleReview. rewrite Hs, Hget, not_bool. unfold Js.set. by rewrite Hlt. }
  split; [| split].
  - rewrite E1. unfold toggleReview at 1. cbn [sub set_reviewed reviewed curQ]. rewrite Hs.
    unfold Js.get, Js.set. rewrite length_insert, Hlt.
    rewrite list_lookup_insert_eq by lia. cbn [default id from_option].
    rewrite not_bool, negb_involutive.
    rewrite list_insert_insert_eq, list_insert_id by exact Eb.
    destruct (app w); reflexivity.
  - exists b. split; [exact Hget |]. rewrite E1. cbn [reviewed set_reviewed].
    unfold Js.get. by rewrite list_lookup_insert_eq by lia.
  - intros j Hj. rewrite E1. cbn [reviewed set_reviewed].
    unfold Js.get. by rewrite list_lookup_insert_ne by congruence.
Qed.

Lemma review_button_toggles_witness :
  toggleReview (toggleReview (app three_walk)) = app three_walk /\
  Js.get (reviewed (toggleReview (app three_walk))) 1 = VBool true.
Proof.
  destruct (review_button_toggles three_data 0 0 three_walk_events three_walk)
    as (H1 & _); [discriminate | vm_compute; reflexivity | vm_compute; reflexivity |].
  split; [exact H1 | vm_compute; reflexivity].
Defined.

(** ** Where the time goes *)











(** ** The countdown along a run *)







(** ** A payload without questions *)

Lemma loadQ_empty idx now s :
  qs s = [] ->
  exists s', loadQ idx now s = Threw s' /\ page s' = page s /\ qs s' = [] /\
             sub s' = sub s /\ timer s' = timer s.
Proof.
  intros Hq. unfold loadQ.
  set (s1 := if (curQ s =? idx)%nat then s else set_lastQTime now (flush now s)).
  assert (E : qs (set_curQ idx s1) = []) by (subst s1; destruct (_ =? _)%nat; exact Hq).
  rewrite E. cbn. eexists. split; [reflexivity |].
  subst s1. destruct (_ =? _)%nat; cbn; auto.
Qed.

Lemma handle_dead e s : dead s -> enabled e s = true -> dead (state_of (handle e s)).
Proof.
  intros (Hq & Hw & Hg & Ho) He.
  destruct e; cbn in He; rewrite ?Hw, ?Hg, ?Ho in He; try discriminate; cbn [handle].
  - unfold init.
    set (s0 := startTimer (createGrid (set_page (set_welcome false (page s)) s))).
    destruct (clear_timer_fields (createGrid (set_page (set_welcome false (page s)) s)))
      as (_ & _ & Eqs & _ & _ & _ & _ & _ & _ & _ & _ & Ep).
    assert (H0 : qs s0 = [] /\ page s0 = set_gridCells 0 (set_welcome false (page s))).
    { subst s0. unfold startTimer. cbn. rewrite Eqs, Ep. cbn. rewrite Hq. auto. }
    destruct H0 as (Hq0 & Hp0).
    destruct (loadQ_empty 0 t s0 Hq0) as (s' & -> & Ep' & Hq' & _).
    cbn. unfold dead. rewrite Ep', Hp0, Hq'. cbn. auto.
  - unfold tick. set (s1 := set_timeLeft (Js.minus (timeLeft s) (VNum 1)) s).
    destruct (Js.le _ _); [| unfold dead; cbn; auto].
    destruct (clear_timer_fields s1) as (_ & _ & Eqs & _ & _ & _ & _ & _ & _ & _ & _ & Ep).
    unfold subTest. destruct (sub (clear_timer s1)).
    + unfold dead. cbn [state_of]. rewrite Eqs, Ep. cbn. auto.
    + match goal with |- dead (state_of (loadQ ?i ?n ?x)) =>
        assert (Hx : qs x = [] /\ wired (page x) = false /\ gridCells (page x) = 0%nat /\
                     optRows (page x) = None) end.
      { unfold showResults, stopTimers.
        destruct (clear_timer_fields (set_sub true (flush t (clear_timer s1))))
          as (_ & _ & Eqs' & _ & _ & _ & _ & _ & _ & _ & _ & Ep').
        cbn. rewrite Eqs', Ep'. cbn. rewrite Eqs, Ep. cbn. auto. }
      destruct Hx as (Hq2 & Hw2 & Hg2 & Ho2).
      match goal with |- dead (state_of (loadQ ?i ?n ?x)) =>
        destruct (loadQ_empty i n x Hq2) as (s' & -> & Ep' & Hq' & _) end.
      unfold dead. cbn [state_of]. rewrite Ep', Hq'. auto.
Qed.

Lemma exec_dead evs : forall w w', dead (app w) -> exec evs w = Some w' -> dead (app w').
Proof.
  induction evs as [| e rest IH]; intros w w' Hd H; cbn in H.
  - by injection H as <-.
  - unfold step in H. destruct (enabled e (app w)) eqn:He; cbn in H; [| discriminate].
    destruct (_ && _) in H; [| discriminate].
    apply (IH {| clock := ev_last e; app := state_of (handle e (app w)) |} w'); [| exact H].
    cbn. by apply handle_dead.
Qed.

(** The loader accepts a payload whose [questions] is an empty array, but
    the session it builds cannot be used: [init] throws in [loadQ(0)] before
    [setupEvents], so in every run no button ever gets a handler and there is
    no grid cell and no option row; all that can still happen is the start and
    the ticks of the countdown, and the result, whenever it is computed, is
    0 marks with nothing correct, incorrect or unattempted. *)
Theorem empty_payload_is_dead (cfg : json_config) (t0 t1 : Z) (evs : list event)
    (w : World) :
  let data := {| Data.config := cfg; Data.questions := [] |} in
  loadTestData (Http true (Some {| raw_config := cfg; raw_questions := Some [] |})) t0 t1
  = Session (constructor data t0 t1) /\
  (forall t, exists s', init t (constructor data t0 t1) = Threw s') /\
  (exec evs (boot data t0 t1) = Some w ->
   dead (app w) /\
   (forall e, enabled e (app w) = true ->
      (exists t, e = Start t) \/ (exists t t', e = Tick t t')) /\
   (forall now,
      correct (calcResults now (app w)) = 0%nat /\
      incorrect (calcResults now (app w)) = 0%nat /\
      unattempted (calcResults now (app w)) = 0%nat /\
      score (calcResults now (app w)) = VNum 0)).
Proof.
  cbn zeta. split; [reflexivity |]. split.
  - intros t. unfold init.
    match goal with |- context [loadQ 0 t ?x] =>
      destruct (loadQ_empty 0 t x) as (s' & -> & _) end.
    + reflexivity.
    + eauto.
  - intros He.
    assert (Hd : dead (app w)).
    { apply (exec_dead evs (boot {| Data.config := cfg; Data.questions := [] |} t0 t1) w);
        [| exact He].
      unfold dead. cbn. auto. }
    split; [exact Hd |]. destruct Hd as (Hq & Hw & Hg & Ho). split.
    + intros e Hen. destruct e; cbn in Hen; rewrite ?Hw, ?Hg, ?Ho in Hen;
        try discriminate; eauto.
    + intros now. unfold calcResults. rewrite Hq. cbn. auto.
Qed.

(** An empty payload with a one-minute config, started and run down: the
    sixtieth tick submits, flushing onto a cell that does not exist. *)
Lemma empty_payload_is_dead_witness :
  let data := {| Data.config := marking 1 0 1 (1 # 4); Data.questions := [] |} in
  let evs := Start 0 :: map (fun k => Tick (1000 * Z.of_nat k) (1000 * Z.of_nat k))
                            (seq 1 60) in
  exists w, exec evs (boot data 0 0) = Some w /\
    dead (app w) /\ sub (app w) = true /\ timeSpent (app w) = [VNaN] /\
    results (page (app w))
    = Some {| score := VNum 0; correct := 0; incorrect := 0; unattempted := 0;
              timeTaken := 1 |}.
Proof.
  cbn zeta. eexists. split; [vm_compute; reflexivity |].
  split.
  - match goal with |- dead (app ?w) =>
      destruct (empty_payload_is_dead (marking 1 0 1 (1 # 4)) 0 0
                  (Start 0 :: map (fun k => Tick (1000 * Z.of_nat k) (1000 * Z.of_nat k))
                                  (seq 1 60)) w) as (_ & _ & H) end.
    apply H. vm_compute. reflexivity.
  - vm_compute. auto.
Defined.

(** ** The carousel *)

Lemma rem_wrap (m t : Z) : 0 < t -> Z.rem (Z.rem m t + t) t = m mod t.
Proof.
  intros Ht.
  pose proof (Z.rem_bound_abs m t ltac:(lia)) as Hb.
  pose proof (Z.quot_rem' m t) as Hq.
  rewrite Z.rem_mod_nonneg by lia.
  replace (Z.rem m t + t) with (m + (1 - Z.quot m t) * t) by lia.
  apply Z.mod_add. lia.
Qed.

Lemma goTo_current (m : Z) (c : Carousel.t) :
  (0 < Carousel.total c)%nat ->
  Carousel.current (Carousel.goTo (Some m) c)
  = Some (m mod Z.of_nat (Carousel.total c)).
Proof.
  intros Ht. unfold Carousel.goTo. cbn [Carousel.current].
  destruct (Z.eqb_spec (Z.of_nat (Carousel.total c)) 0) as [E | _]; [lia |].
  f_equal. apply rem_wrap. lia.
Qed.

Lemma carousel_total e c : Carousel.total (Carousel.handle e c) = Carousel.total c.
Proof.
  destruct e; cbn; unfold Carousel.startAuto, Carousel.stopAuto, Carousel.nextSlide,
    Carousel.prevSlide, Carousel.goTo; repeat case_match; reflexivity.
Qed.

Lemma carousel_current_stop c :
  Carousel.current (Carousel.stopAuto c) = Carousel.current c /\
  Carousel.total (Carousel.stopAuto c) = Carousel.total c.
Proof. unfold Carousel.stopAuto. destruct (Carousel.timer c); auto. Qed.

Lemma carousel_current_start c :
  Carousel.current (Carousel.startAuto c) = Carousel.current c.
Proof. unfold Carousel.startAuto. cbn. apply carousel_current_stop. Qed.

Lemma carousel_handle_in_range n e c :
  (0 < n)%nat -> dot_parses e = true -> on_a_slide n c ->
  on_a_slide n (Carousel.handle e c).
Proof.
  intros Hn Hp (Ht & k & Hk & Hr).
  split; [by rewrite carousel_total |].
  assert (Hmod : forall m c', Carousel.total c' = n ->
            exists k', Carousel.current (Carousel.goTo (Some m) c') = Some k' /\
                       0 <= k' < Z.of_nat n).
  { intros m c' Ht'. rewrite goTo_current by lia. rewrite Ht'.
    eexists. split; [reflexivity |]. apply Z.mod_pos_bound. lia. }
  destruct (carousel_current_stop c) as (Ecs & Ets).
  destruct e as [[idx |] | | | | |]; try discriminate; cbn [Carousel.handle].
  - rewrite carousel_current_start. apply Hmod. congruence.
  - rewrite carousel_current_start. unfold Carousel.nextSlide. rewrite Ecs, Hk.
    apply Hmod. congruence.
  - rewrite carousel_current_start. unfold Carousel.prevSlide. rewrite Ecs, Hk.
    apply Hmod. congruence.
  - unfold Carousel.nextSlide. rewrite Hk. apply Hmod. exact Ht.
  - rewrite Ecs. eauto.
  - rewrite carousel_current_start. eauto.
Qed.

Lemma carousel_exec_in_range n evs :
  forall c c', (0 < n)%nat -> forallb dot_parses evs = true -> on_a_slide n c ->
    Carousel.exec evs c = Some c' -> on_a_slide n c'.
Proof.
  induction evs as [| e rest IH]; intros c c' Hn Hp Hc He; cbn in He, Hp.
  - by injection He as <-.
  - apply andb_true_iff in Hp as (Hp1 & Hp2).
    destruct (Carousel.enabled e c); [| discriminate].
    apply (IH (Carousel.handle e c) c' Hn Hp2); [| exact He].
    by apply carousel_handle_in_range.
Qed.

Lemma carousel_init_in_range n : (0 < n)%nat -> on_a_slide n (Carousel.init n).
Proof.
  intros Hn. unfold Carousel.init. split; [reflexivity |].
  rewrite carousel_current_start, goTo_current by (cbn; lia).
  cbn [Carousel.total]. eexists. split; [reflexivity |]. apply Z.mod_pos_bound. lia.
Qed.

(** [goTo(m)] shows slide [m mod total], for negative [m] as well; so in
    every run of clicks, hovers and automatic advances over at least one
    slide, with dots whose index parses, the current slide is one of the
    slides. *)
Theorem carousel_stays_on_a_slide (n : nat) (evs : list Carousel.event) (c : Carousel.t) :
  (0 < n)%nat ->
  forallb dot_parses evs = true ->
  Carousel.exec evs (Carousel.init n) = Some c ->
  (exists k, Carousel.current c = Some k /\ 0 <= k < Z.of_nat n) /\
  (forall m, Carousel.current (Carousel.goTo (Some m) c) = Some (m mod Z.of_nat n)).
Proof.
  intros Hn Hp He.
  destruct (carousel_exec_in_range n evs _ c Hn Hp (carousel_init_in_range n Hn) He)
    as (Ht & Hk).
  split; [exact Hk |].
  intros m. rewrite goTo_current by lia. by rewrite Ht.
Qed.

(** Five slides: two steps back from the first slide end on slide 3; from
    there [goTo(-1)] shows slide 4 and [goTo(7)] slide 2. *)
Lemma carousel_stays_on_a_slide_witness :
  let back2 := Carousel.handle Carousel.PrevArrow
                 (Carousel.handle Carousel.PrevArrow (Carousel.init 5)) in
  Carousel.exec [Carousel.PrevArrow; Carousel.PrevArrow] (Carousel.init 5) = Some back2 /\
  Carousel.current back2 = Some 3 /\
  Carousel.current (Carousel.goTo (Some (-1)) back2) = Some 4 /\
  Carousel.current (Carousel.goTo (Some 7) back2) = Some 2.
Proof.
  cbn zeta.
  destruct (carousel_stays_on_a_slide 5 [Carousel.PrevArrow; Carousel.PrevArrow]
              (Carousel.handle Carousel.PrevArrow
                 (Carousel.handle Carousel.PrevArrow (Carousel.init 5))))
    as (_ & H); [lia | reflexivity | reflexivity |].
  split; [reflexivity |]. split; [reflexivity |].
  split; rewrite H; reflexivity.
Defined.

(** ** The carousel's interval *)

Lemma carousel_stop_live c :
  Carousel.live c = (if Carousel.timer c then 1 else 0)%nat ->
  Carousel.timer (Carousel.stopAuto c) = false /\
  Carousel.live (Carousel.stopAuto c) = 0%nat.
Proof.
  unfold Carousel.stopAuto. destruct (Carousel.timer c) eqn:E; cbn; intros H.
  - rewrite H. auto.
  - rewrite E. auto.
Qed.

Lemma carousel_start_live c :
  Carousel.live c = (if Carousel.timer c then 1 else 0)%nat ->
  Carousel.timer (Carousel.startAuto c) = true /\
  Carousel.live (Carousel.startAuto c) = 1%nat.
Proof.
  intros H. destruct (carousel_stop_live c H) as (_ & E).
  unfold Carousel.startAuto. cbn. rewrite E. auto.
Qed.

Lemma carousel_goTo_live m c :
  Carousel.live (Carousel.goTo m c) = Carousel.live c /\
  Carousel.timer (Carousel.goTo m c) = Carousel.timer c.
Proof. unfold Carousel.goTo. auto. Qed.

Lemma carousel_handle_live e c :
  Carousel.live c = (if Carousel.timer c then 1 else 0)%nat ->
  Carousel.live (Carousel.handle e c)
  = (if Carousel.timer (Carousel.handle e c) then 1 else 0)%nat /\
  (match e with
   | Carousel.Dot _ | Carousel.NextArrow | Carousel.PrevArrow =>
       Carousel.timer (Carousel.handle e c) = true
   | _ => True
   end).
Proof.
  intros H. destruct (carousel_stop_live c H) as (Et & El).
  assert (Hstop : Carousel.live (Carousel.stopAuto c)
                  = (if Carousel.timer (Carousel.stopAuto c) then 1 else 0)%nat)
    by (rewrite Et, El; reflexivity).
  destruct e; cbn [Carousel.handle].
  - destruct (carousel_start_live (Carousel.goTo idx (Carousel.stopAuto c))) as (-> & ->);
      [by rewrite !(proj1 (carousel_goTo_live _ _)), (proj2 (carousel_goTo_live _ _)) | auto].
  - destruct (carousel_start_live (Carousel.nextSlide (Carousel.stopAuto c))) as (-> & ->);
      [unfold Carousel.nextSlide;
       by rewrite !(proj1 (carousel_goTo_live _ _)), (proj2 (carousel_goTo_live _ _)) | auto].
  - destruct (carousel_start_live (Carousel.prevSlide (Carousel.stopAuto c))) as (-> & ->);
      [unfold Carousel.prevSlide;
       by rewrite !(proj1 (carousel_goTo_live _ _)), (proj2 (carousel_goTo_live _ _)) | auto].
  - unfold Carousel.nextSlide.
    rewrite (proj1 (carousel_goTo_live _ _)), (proj2 (carousel_goTo_live _ _)). auto.
  - rewrite Et, El. auto.
  - destruct (carousel_start_live c H) as (-> & ->). auto.
Qed.

Lemma carousel_exec_live evs :
  forall c c',
    Carousel.live c = (if Carousel.timer c then 1 else 0)%nat ->
    Carousel.exec evs c = Some c' ->
    Carousel.live c' = (if Carousel.timer c' then 1 else 0)%nat.
Proof.
  induction evs as [| e rest IH]; intros c c' H He; cbn in He.
  - by injection He as <-.
  - destruct (Carousel.enabled e c); [| discriminate].
    apply (IH (Carousel.handle e c) c'); [| exact He].
    apply (carousel_handle_live e c H).
Qed.

(** The carousel never runs two intervals: in every run at most one is
    live, and one is live exactly while [timer] holds its handle.  A click on
    a dot or an arrow leaves the automatic advance running, also while the
    pointer is over the carousel and had paused it. *)
Theorem carousel_one_interval (n : nat) (evs : list Carousel.event) (c : Carousel.t) :
  Carousel.exec evs (Carousel.init n) = Some c ->
  Carousel.live c = (if Carousel.timer c then 1 else 0)%nat /\
  (Carousel.live c <= 1)%nat /\
  (forall e, match e with
             | Carousel.Dot _ | Carousel.NextArrow | Carousel.PrevArrow =>
                 Carousel.timer (Carousel.handle e c) = true /\
                 Carousel.live (Carousel.handle e c) = 1%nat
             | _ => True
             end).
Proof.
  intros He.
  assert (H : Carousel.live c = (if Carousel.timer c then 1 else 0)%nat)
    by (by apply (carousel_exec_live evs (Carousel.init n) c)).
  split; [exact H |]. split; [destruct (Carousel.timer c); lia |].
  intros e. pose proof (carousel_handle_live e c H) as (H1 & H2).
  destruct e; auto; split; auto; rewrite H1, H2; reflexivity.
Qed.

(** Hovering pauses the advance; a click on the next arrow while hovering
    starts it again, with one interval. *)
Lemma carousel_one_interval_witness :
  let c := Carousel.stopAuto (Carousel.init 3) in
  Carousel.exec [Carousel.MouseEnter] (Carousel.init 3) = Some c /\
  Carousel.timer c = false /\ Carousel.live c = 0%nat /\
  Carousel.timer (Carousel.handle Carousel.NextArrow c) = true /\
  Carousel.live (Carousel.handle Carousel.NextArrow c) = 1%nat.
Proof.
  cbn zeta.
  destruct (carousel_one_interval 3 [Carousel.MouseEnter]
              (Carousel.stopAuto (Carousel.init 3)) eq_refl) as (_ & _ & H3).
  specialize (H3 Carousel.NextArrow).
  split; [reflexivity |]. split; [reflexivity |]. split; [reflexivity |]. exact H3.
Defined.

(** ** Next and previous slide *)

(** On a slide of the carousel, next and previous undo each other, and
    they wrap: next from the last slide shows the first, previous from the
    first shows the last. *)
Theorem carousel_next_prev_wrap (c : Carousel.t) (k : Z) :
  Carousel.current c = Some k -> 0 <= k < Z.of_nat (Carousel.total c) ->
  Carousel.current (Carousel.prevSlide (Carousel.nextSlide c)) = Some k /\
  Carousel.current (Carousel.nextSlide (Carousel.prevSlide c)) = Some k /\
  Carousel.current (Carousel.nextSlide c)
  = Some (if k =? Z.of_nat (Carousel.total c) - 1 then 0 else k + 1) /\
  Carousel.current (Carousel.prevSlide c)
  = Some (if k =? 0 then Z.of_nat (Carousel.total c) - 1 else k - 1).
Proof.
  intros Hk Hr.
  assert (Ht : (0 < Carousel.total c)%nat) by lia.
  set (t := Z.of_nat (Carousel.total c)) in *.
  assert (En : Carousel.current (Carousel.nextSlide c) = Some ((1 + k) mod t))
    by (unfold Carousel.nextSlide; rewrite Hk; cbn [fmap option_fmap option_map];
        by rewrite goTo_current).
  assert (Ep : Carousel.current (Carousel.prevSlide c) = Some ((k - 1) mod t))
    by (unfold Carousel.prevSlide; rewrite Hk; cbn [fmap option_fmap option_map];
        by rewrite goTo_current).
  assert (Tn : Carousel.total (Carousel.nextSlide c) = Carousel.total c) by reflexivity.
  assert (Tp : Carousel.total (Carousel.prevSlide c) = Carousel.total c) by reflexivity.
  split; [| split; [| split]].
  - unfold Carousel.prevSlide at 1. rewrite En. cbn [fmap option_fmap option_map].
    rewrite goTo_current by (rewrite Tn; exact Ht). rewrite Tn. fold t.
    rewrite Zminus_mod_idemp_l. replace (1 + k - 1) with k by lia.
    by rewrite Z.mod_small.
  - unfold Carousel.nextSlide at 1. rewrite Ep. cbn [fmap option_fmap option_map].
    rewrite goTo_current by (rewrite Tp; exact Ht). rewrite Tp. fold t.
    rewrite Zplus_mod_idemp_r. replace (1 + (k - 1)) with k by lia.
    by rewrite Z.mod_small.
  - rewrite En. f_equal. destruct (Z.eqb_spec k (t - 1)) as [-> | Hne].
    + replace (1 + (t - 1)) with (0 + 1 * t) by lia. rewrite Z.mod_add by lia.
      apply Z.mod_0_l. lia.
    + rewrite Z.mod_small by lia. lia.
  - rewrite Ep. f_equal. destruct (Z.eqb_spec k 0) as [-> | Hne].
    + replace (0 - 1) with (t - 1 + (-1) * t) by lia. rewrite Z.mod_add by lia.
      apply Z.mod_small. lia.
    + apply Z.mod_small. lia.
Qed.

(** Four slides, on the last one. *)
Lemma carousel_next_prev_wrap_witness :
  let c := {| Carousel.current := Some 3; Carousel.total := 4;
              Carousel.timer := true; Carousel.live := 1 |} in
  Carousel.current (Carousel.nextSlide c) = Some 0 /\
  Carousel.current (Carousel.prevSlide (Carousel.nextSlide c)) = Some 3.
Proof.
  cbn zeta.
  destruct (carousel_next_prev_wrap
              {| Carousel.current := Some 3; Carousel.total := 4;
                 Carousel.timer := true; Carousel.live := 1 |} 3)
    as (H1 & _ & H3 & _); [reflexivity | cbn; lia |].
  split; [exact H3 | exact H1].
Defined.

(** ** The result on display *)

(** An event on an unsubmitted session either leaves it unsubmitted, with
    the modal as it was, or submits it and fills the modal. *)
Lemma handle_results e s :
  sub s = false ->
  (sub (state_of (handle e s)) = false /\
   results (page (state_of (handle e s))) = results (page s)) \/
  (sub (state_of (handle e s)) = true /\
   exists now x, results (page (state_of (handle e s))) = Some (calcResults now x) /\
                 qs x = qs s).
Proof.
  intros Hs.
  assert (HloadQ : forall idx now x, sub x = false -> results (page x) = results (page s) ->
            sub (state_of (loadQ idx now x)) = false /\
            results (page (state_of (loadQ idx now x))) = results (page s)).
  { intros idx now x Hx Hr.
    destruct (loadQ_fields idx now x) as (_ & _ & _ & _ & _ & _ & _ & E1 & _ & E2 & _).
    split; congruence. }
  assert (Hsub : forall t t' x, sub x = false -> qs x = qs s ->
            sub (state_of (subTest t t' x)) = true /\
            exists now y, results (page (state_of (subTest t t' x))) = Some (calcResults now y) /\
                          qs y = qs s).
  { intros t t' x Hx Hq.
    destruct (subTest_fields t t' x Hx)
      as (E1 & _ & _ & _ & _ & _ & _ & _ & _ & _ & _ & _ & _ & _ & _ & E2).
    split; [exact E1 |]. eauto. }
  destruct e; cbn [handle].
  - left. unfold init.
    set (s0 := startTimer (createGrid (set_page (set_welcome false (page s)) s))).
    destruct (clear_timer_fields (createGrid (set_page (set_welcome false (page s)) s)))
      as (_ & _ & _ & _ & _ & _ & _ & _ & _ & _ & Esub & Ep).
    assert (H0 : sub s0 = false /\ results (page s0) = results (page s)).
    { subst s0. unfold startTimer. cbn. rewrite Esub, Ep. cbn. auto. }
    destruct H0 as (H0 & H0').
    pose proof (HloadQ 0%nat t s0 H0 H0') as H1.
    destruct (loadQ 0 t s0) as [s1 | s1]; cbn [state_of and_then] in *; [| exact H1].
    destruct H1 as (H1 & H2). cbn. auto.
  - left. unfold nav. destruct (_ && _); [by apply HloadQ | auto].
  - left. unfold nav. destruct (_ && _); [by apply HloadQ | auto].
  - left. unfold goToQ. pose proof (HloadQ i t s Hs eq_refl) as H.
    destruct (loadQ i t s); exact H.
  - left. destruct (optRows (page s)) as [[qIdx n] |]; [| auto].
    unfold selOpt. rewrite Hs.
    match goal with |- context [loadOpts ?q ?j ?s1] =>
      destruct (loadOpts_fields q j s1)
        as (_ & _ & _ & _ & _ & _ & _ & _ & _ & E1 & _ & E2 & _) end.
    rewrite E1, E2. cbn. auto.
  - left. cbn. unfold toggleReview. rewrite Hs. cbn. auto.
  - left. unfold setLang. by apply HloadQ.
  - left. unfold toggleTheme. by apply HloadQ.
  - unfold tick. set (s1 := set_timeLeft (Js.minus (timeLeft s) (VNum 1)) s).
    destruct (Js.le _ _); [| left; cbn; auto].
    right. destruct (clear_timer_fields s1) as (_ & _ & Eqs & _ & _ & _ & _ & _ & _ & _ & Esub & _).
    apply Hsub; [rewrite Esub; exact Hs | rewrite Eqs; reflexivity].
  - right. by apply Hsub.
  - left. cbn. auto.
  - left. unfold review. by apply (HloadQ 0%nat).
Qed.

Lemma handle_result_iff e s :
  result_iff_submitted s -> result_iff_submitted (state_of (handle e s)).
Proof.
  intros (Hf & Ht). destruct (handle_payload e s) as (_ & Eqs & _).
  unfold result_iff_submitted. rewrite Eqs.
  destruct (sub s) eqn:Hs.
  - destruct (handle_frozen e s Hs) as (E1 & _ & _ & E2).
    rewrite E1, E2, Hs. split; [discriminate | exact Ht].
  - destruct (handle_results e s Hs) as [(E1 & E2) | (E1 & now & x & E2 & Ex)];
      rewrite E1, E2.
    + split; [auto | discriminate].
    + split; [discriminate |]. intros _. eexists. split; [reflexivity |].
      rewrite counts_add_up. by rewrite Ex.
Qed.

Lemma exec_result_iff evs :
  forall w w', result_iff_submitted (app w) -> exec evs w = Some w' ->
    result_iff_submitted (app w').
Proof.
  induction evs as [| e rest IH]; intros w w' Hr H; cbn in H.
  - by injection H as <-.
  - unfold step in H. destruct (_ && _); [| discriminate].
    apply (IH {| clock := ev_last e; app := state_of (handle e (app w)) |} w'); [| exact H].
    cbn. by apply handle_result_iff.
Qed.

(** In every run of the page the results modal holds a result exactly when
    the session is submitted, never before; and the result it holds accounts
    for every question of the payload. *)
Theorem result_shown_iff_submitted (data : Data.t) (t0 t1 : Z) (evs : list event)
    (w : World) :
  exec evs (boot data t0 t1) = Some w ->
  (sub (app w) = false <-> results (page (app w)) = None) /\
  (forall r, results (page (app w)) = Some r ->
     sub (app w) = true /\
     (correct r + incorrect r + unattempted r = length (Data.questions data))%nat).
Proof.
  intros He.
  destruct (exec_result_iff evs (boot data t0 t1) w) as (Hf & Ht);
    [split; [reflexivity | discriminate] | exact He |].
  destruct (exec_payload evs _ _ He) as (_ & Eqs & _). cbn in Eqs.
  split.
  - split; [exact Hf |]. intros Hn. destruct (sub (app w)); [| reflexivity].
    destruct (Ht eq_refl) as (r & Hr & _). congruence.
  - intros r Hr. destruct (sub (app w)) eqn:Hs.
    + split; [reflexivity |]. destruct (Ht eq_refl) as (r' & Hr' & Hc).
      rewrite <- Eqs. congruence.
    + rewrite (Hf eq_refl) in Hr. discriminate.
Qed.

(** The walk through three questions has no result; its submission shows
    one that accounts for the three questions. *)
Lemma result_shown_iff_submitted_witness :
  results (page (app three_walk)) = None /\
  (results ∘ page ∘ app) <$> step (Submit 15000 15001) three_walk
  = Some (Some {| score := VNum 1; correct := 1; incorrect := 0; unattempted := 2;
                  timeTaken := 0 |}).
Proof.
  destruct (result_shown_iff_submitted three_data 0 0 three_walk_events three_walk)
    as ((H & _) & _); [vm_compute; reflexivity |].
  split; [apply H; vm_compute; reflexivity | vm_compute; reflexivity].
Defined.
